(** * libwebsockets: the connection service core of [lib/libwebsockets.c]

    A shallow embedding of the descriptor table, the teardown routine
    [libwebsocket_close_and_free_session], the service phase
    [libwebsocket_poll_connections], the accept phase and the table set-up
    of [libwebsocket_create_server], and [libwebsockets_broadcast].

    Conventions of the embedding:
    - a C pointer is its address, a [Z]; [NULL] is [0].  A slot of the
      [wsi] array is such a [Z]: the code itself reads it both as a pointer
      and, through [(unsigned long)], as a small integer;
    - connection records live in a store [gmap Z libwebsocket]; [malloc]
      adds a binding, [free] removes it, and reading through an address
      with no binding is a fault ([None]);
    - the fixed-size arrays [fds] and [wsi] are lists; an access beyond
      the list is a fault ([None]);
    - counts and indices ([fds_count], [count_protocols], [client], [n])
      are C [int]s that never leave [0 .. MAX_CLIENTS]; they are [nat];
    - a pointer into the protocol array is the offset of its element, so
      [protocols] itself is offset [0];
    - system calls, user callbacks and log lines are recorded, in order,
      in a trace of [event]s.  A user callback is opaque: its invocation
      is recorded together with what it is handed. *)

From Stdlib Require Import ZArith Lia.
From stdpp Require Import gmap list strings.

(** ** Constants of the build and of the platform

    [private-libwebsockets.h] and [<poll.h>] are included by the source
    but their values are not fixed by it; they are parameters here. *)
Record lws_config := {
  LWS_MAX_PROTOCOLS : Z;
  MAX_CLIENTS : nat;
  WSI_TOKEN_COUNT : nat;
  POLLIN : Z;
  POLLERR : Z;
  POLLHUP : Z;
  (** width of [size_t] in bits *)
  size_t_bits : positive;
  (** the global [use_ssl]; always [false] without LWS_OPENSSL_SUPPORT *)
  use_ssl : bool
}.

(** Modelled from the spec: the enumeration of connection states, declared
    in [private-libwebsockets.h]; the three states the source names are
    the three states of the spec. *)
Inductive wsi_state :=
| WSI_STATE_HTTP
| WSI_STATE_DEAD_SOCKET
| WSI_STATE_ESTABLISHED.

(** Modelled from the spec: the closed enumeration of callback reasons,
    declared in [libwebsockets.h]. *)
Inductive libwebsocket_callback_reasons :=
| LWS_CALLBACK_ESTABLISHED
| LWS_CALLBACK_CLOSED
| LWS_CALLBACK_RECEIVE
| LWS_CALLBACK_BROADCAST
| LWS_CALLBACK_HTTP.

Global Instance wsi_state_eq_dec : EqDecision wsi_state.
Proof. solve_decision. Defined.

Global Instance reason_eq_dec : EqDecision libwebsocket_callback_reasons.
Proof. solve_decision. Defined.

(** [struct lws_tokens]: an owned buffer (or [NULL]) and its length. *)
Record lws_tokens := {
  token : Z;
  token_len : Z
}.

(** [struct libwebsocket_protocols], the fields the source touches. *)
Record libwebsocket_protocols := {
  callback : Z;
  owning_server : Z;
  protocol_index : Z;
  broadcast_socket_port : Z;
  broadcast_socket_user_fd : Z
}.

(** [struct libwebsocket], the fields the source touches. *)
Record libwebsocket := {
  sock : Z;
  ssl : Z;
  state : wsi_state;
  name_buffer_pos : Z;
  utf8_token : list lws_tokens;
  protocol : nat;
  user_space : Z;
  ietf_spec_revision : Z
}.

(** [struct pollfd]. *)
Record pollfd := {
  fd : Z;
  events : Z;
  revents : Z
}.

(** [struct libwebsocket_context]. *)
Record libwebsocket_context := {
  fds : list pollfd;
  wsi : list Z;
  fds_count : nat;
  count_protocols : nat;
  ctx_use_ssl : bool
}.

(** What a user callback is handed, and the state of the record at the
    moment of the call. *)
Record callback_call := {
  cb_fn : Z;
  cb_wsi : Z;
  cb_state : wsi_state;
  cb_reason : libwebsocket_callback_reasons;
  cb_user : Z;
  cb_in : option (list Z);
  cb_len : Z
}.

Inductive event :=
| EvCallback (c : callback_call)
| EvLog (msg : string)
| EvFree (p : Z)
| EvShutdown (s : Z)
| EvClose (s : Z)
| EvSSLShutdown (s : Z)
| EvSSLFree (s : Z)
| EvRead (s : Z)
| EvRecv (s : Z)
| EvSSLRead (s : Z)
| EvFeed (w : Z) (n : Z)
| EvAccept (s : Z)
| EvSend (s : Z) (len : Z).

(** The calls that leave the file: the operating system, the TLS library
    and the handshake/framing engine [libwebsocket_read]. *)
Record environment := {
  sys_read : Z → Z * list Z;
  sys_recv : Z → Z * list Z;
  SSL_read : Z → Z * list Z;
  SSL_get_fd : Z → Z;
  sys_accept : Z → Z;
  sys_malloc : gmap Z libwebsocket → Z;
  SSL_new : Z → Z;
  SSL_accept : Z → Z;
  sys_send : Z → list Z → Z → Z;
  sys_socket : nat → Z;
  sys_bind : Z → Z;
  sys_getsockname : Z → Z * Z;
  libwebsocket_read :
    gmap Z libwebsocket → Z → list Z → Z → gmap Z libwebsocket * list event * Z
}.

(** C's [!x]. *)
Definition c_not (x : Z) : Z := if (x =? 0)%Z then 1%Z else 0%Z.

(** The [int] a wider signed result is stored in ([int n = send(...)]): an
    [int] has 32 bits on the platforms of the source, and a value that
    does not fit wraps around. *)
Definition to_int (x : Z) : Z := ((x + 2 ^ 31) mod 2 ^ 32 - 2 ^ 31)%Z.

(** An in-range array store; out of range is a fault. *)
Definition array_set {A} (l : list A) (i : nat) (x : A) : option (list A) :=
  if decide (i < length l) then Some (<[i:=x]> l) else None.

(** The body of a counted [for] loop whose iterations only emit events. *)
Fixpoint for_each (ns : list nat) (body : nat → option (list event))
  : option (list event) :=
  match ns with
  | [] => Some []
  | n :: ns' =>
      ev ← body n;
      evs ← for_each ns' body;
      Some (ev ++ evs)
  end.

(** The callback invocations of a trace. *)
Definition callbacks_of (evs : list event) : list callback_call :=
  omap (λ e, match e with EvCallback c => Some c | _ => None end) evs.

Section Service.

Variable cfg : lws_config.
Variable env : environment.

(** [len = read(...)]: the [ssize_t] result stored in a [size_t]. *)
Definition to_size_t (r : Z) : Z := (r mod 2 ^ Z.pos (size_t_bits cfg))%Z.

(** The client zone of the table: [count_protocols + 1 .. fds_count - 1]. *)
Definition client_slots (this : libwebsocket_context) : list nat :=
  seq (count_protocols this + 1) (fds_count this - (count_protocols this + 1)).

Definition free_tokens (ts : list lws_tokens) : list event :=
  flat_map (λ t, if (token t =? 0)%Z then [] else [EvFree (token t)]) ts.

(** [libwebsocket_close_and_free_session], lines 77-116. *)
Definition libwebsocket_close_and_free_session
    (protocols : list libwebsocket_protocols)
    (heap : gmap Z libwebsocket) (w : Z)
  : option (gmap Z libwebsocket * list event) :=
  if (w <? LWS_MAX_PROTOCOLS cfg)%Z then Some (heap, [])
  else
    r ← heap !! w;
    let n := state r in
    p ← protocols !! protocol r;
    let closed :=
      if negb (callback p =? 0)%Z && bool_decide (n = WSI_STATE_ESTABLISHED)
      then [EvCallback {| cb_fn := callback p; cb_wsi := w;
                          cb_state := WSI_STATE_DEAD_SOCKET;
                          cb_reason := LWS_CALLBACK_CLOSED;
                          cb_user := user_space r;
                          cb_in := None; cb_len := 0 |}]
      else [] in
    let transport :=
      if use_ssl cfg
      then [EvSSLShutdown (ssl r); EvClose (SSL_get_fd env (ssl r));
            EvSSLFree (ssl r)]
      else [EvShutdown (sock r); EvClose (sock r)] in
    let user :=
      if (user_space r =? 0)%Z then [] else [EvFree (user_space r)] in
    Some (delete w heap,
          closed ++ free_tokens (utf8_token r) ++ transport ++ user
                 ++ [EvFree w]).

(** The body of the fan-out loop of [libwebsocket_poll_connections],
    lines 162-190: [sentinel] is [(unsigned long)this->wsi[client]]. *)
Definition fanout_slot
    (protocols : list libwebsocket_protocols)
    (this : libwebsocket_context) (heap : gmap Z libwebsocket)
    (sentinel : Z) (buf : list Z) (len : Z) (n : nat)
  : option (list event) :=
  w ← wsi this !! n;
  if (w <? LWS_MAX_PROTOCOLS cfg)%Z then Some []
  else
    r ← heap !! w;
    if negb (bool_decide (state r = WSI_STATE_ESTABLISHED)) then Some []
    else
      p ← protocols !! protocol r;
      if negb (protocol_index p =? sentinel)%Z then Some []
      else if (callback p =? 0)%Z then None
      else Some [EvCallback {| cb_fn := callback p; cb_wsi := w;
                               cb_state := state r;
                               cb_reason := LWS_CALLBACK_BROADCAST;
                               cb_user := user_space r;
                               cb_in := Some buf; cb_len := len |}].

Definition broadcast_fanout
    (protocols : list libwebsocket_protocols)
    (this : libwebsocket_context) (heap : gmap Z libwebsocket)
    (sentinel : Z) (buf : list Z) (len : Z) : option (list event) :=
  for_each (client_slots this)
           (fanout_slot protocols this heap sentinel buf len).

(** The body of the in-loop path of [libwebsockets_broadcast],
    lines 743-762: [proto] is the pointer [protocol]. *)
Definition inloop_slot
    (protocols : list libwebsocket_protocols)
    (this : libwebsocket_context) (heap : gmap Z libwebsocket)
    (proto : nat) (buf : list Z) (len : Z) (n : nat)
  : option (list event) :=
  w ← wsi this !! n;
  if (w <? LWS_MAX_PROTOCOLS cfg)%Z then Some []
  else
    r ← heap !! w;
    if negb (bool_decide (state r = WSI_STATE_ESTABLISHED)) then Some []
    else if negb (bool_decide (protocol r = proto)) then Some []
    else
      p ← protocols !! protocol r;
      if (callback p =? 0)%Z then None
      else Some [EvCallback {| cb_fn := callback p; cb_wsi := w;
                               cb_state := state r;
                               cb_reason := LWS_CALLBACK_BROADCAST;
                               cb_user := user_space r;
                               cb_in := Some buf; cb_len := len |}].

(** [libwebsockets_broadcast], lines 724-770.  [servers] resolves the
    pointer [protocol->owning_server]. *)
Definition libwebsockets_broadcast
    (protocols : list libwebsocket_protocols)
    (servers : gmap Z libwebsocket_context) (heap : gmap Z libwebsocket)
    (proto : nat) (buf : list Z) (len : Z) : option (Z * list event) :=
  p ← protocols !! proto;
  if (broadcast_socket_user_fd p =? 0)%Z then
    this ← servers !! owning_server p;
    evs ← for_each (client_slots this)
                   (inloop_slot protocols this heap proto buf len);
    Some (0%Z, evs)
  else
    Some (to_int (sys_send env (broadcast_socket_user_fd p) buf len),
          [EvSend (broadcast_socket_user_fd p) len]).

(** The transport read of a client slot, lines 195-200: [SSL_read] on the
    record's session or [recv] on the descriptor. *)
Definition transport_read
    (this : libwebsocket_context) (heap : gmap Z libwebsocket)
    (w : Z) (pfd : pollfd) : option (event * (Z * list Z)) :=
  if ctx_use_ssl this
  then r ← heap !! w; Some (EvSSLRead (ssl r), SSL_read env (ssl r))
  else Some (EvRecv (fd pfd), sys_recv env (fd pfd)).

(** How the body of the service loop leaves: [continue], or the jump to
    [nuke_this]. *)
Inductive slot_exit :=
| SlotContinue
| SlotNuke.

(** One iteration of the service loop of [libwebsocket_poll_connections],
    lines 129-217, up to the [continue] or the jump to [nuke_this]. *)
Definition service_slot
    (protocols : list libwebsocket_protocols)
    (this : libwebsocket_context) (heap : gmap Z libwebsocket)
    (client : nat)
  : option (slot_exit * gmap Z libwebsocket * list event) :=
  pfd ← fds this !! client;
  if negb (Z.land (revents pfd) (Z.lor (POLLERR cfg) (POLLHUP cfg)) =? 0)%Z
  then
    w ← wsi this !! client;
    '(heap', evs) ← libwebsocket_close_and_free_session protocols heap w;
    Some (SlotNuke, heap', evs)
  else if (c_not (Z.land (revents pfd) (POLLIN cfg)) =? 1)%Z then
    Some (SlotContinue, heap, [])
  else
    w ← wsi this !! client;
    if (w <? LWS_MAX_PROTOCOLS cfg)%Z then
      let '(res, data) := sys_read env (fd pfd) in
      let len := to_size_t res in
      if (len <? 0)%Z then
        Some (SlotContinue, heap,
              [EvRead (fd pfd); EvLog "Error receiving broadcast payload"])
      else
        evs ← broadcast_fanout protocols this heap w data len;
        Some (SlotContinue, heap, EvRead (fd pfd) :: evs)
    else
      '(ev, (n, buf)) ← transport_read this heap w pfd;
      if (n <? 0)%Z then
        Some (SlotContinue, heap, [ev; EvLog "Socket read returned"])
      else if (c_not n =? 1)%Z then
        '(heap', evs) ← libwebsocket_close_and_free_session protocols heap w;
        Some (SlotNuke, heap', ev :: evs)
      else
        let '(heap', evs, res) := libwebsocket_read env heap w buf n in
        if (0 <=? res)%Z
        then Some (SlotContinue, heap', ev :: EvFeed w n :: evs)
        else Some (SlotNuke, heap', ev :: EvFeed w n :: evs).

(** The copy loop under [nuke_this], lines 229-232: [k] iterations left,
    starting at index [n]. *)
Fixpoint shift_down (k n : nat) (this : libwebsocket_context)
  : option libwebsocket_context :=
  match k with
  | O => Some this
  | S k' =>
      f ← fds this !! (n + 1);
      w ← wsi this !! (n + 1);
      fds' ← array_set (fds this) n f;
      wsi' ← array_set (wsi this) n w;
      shift_down k' (n + 1)
        {| fds := fds'; wsi := wsi';
           fds_count := fds_count this;
           count_protocols := count_protocols this;
           ctx_use_ssl := ctx_use_ssl this |}
  end.

(** [nuke_this:], lines 223-233. *)
Definition nuke_this (this : libwebsocket_context) (client : nat)
  : option libwebsocket_context :=
  let this' := {| fds := fds this; wsi := wsi this;
                  fds_count := fds_count this - 1;
                  count_protocols := count_protocols this;
                  ctx_use_ssl := ctx_use_ssl this |} in
  shift_down (fds_count this' - client) client this'.

(** The service loop, lines 129-234, with [k] slots left to visit from
    [client] on.  The count of the table only changes under [nuke_this],
    which leaves the loop, so [k] is the exact number of iterations
    left. *)
Fixpoint poll_loop
    (protocols : list libwebsocket_protocols)
    (k client : nat)
    (this : libwebsocket_context) (heap : gmap Z libwebsocket)
  : option (libwebsocket_context * gmap Z libwebsocket * list event) :=
  match k with
  | O => Some (this, heap, [])
  | S k' =>
      '(exit, heap1, evs1) ← service_slot protocols this heap client;
      match exit with
      | SlotContinue =>
          '(this2, heap2, evs2) ← poll_loop protocols k' (client + 1) this heap1;
          Some (this2, heap2, evs1 ++ evs2)
      | SlotNuke =>
          this' ← nuke_this this client;
          Some (this', heap1, evs1)
      end
  end.

(** [libwebsocket_poll_connections], lines 118-237. *)
Definition libwebsocket_poll_connections
    (protocols : list libwebsocket_protocols)
    (this : libwebsocket_context) (heap : gmap Z libwebsocket)
  : option (libwebsocket_context * gmap Z libwebsocket * list event) :=
  poll_loop protocols
            (fds_count this - (count_protocols this + 1))
            (count_protocols this + 1) this heap.

(** How the body of the accept loop leaves: [continue] (or the end of the
    body), or [return -1]. *)
Inductive accept_exit :=
| AcceptContinue
| AcceptReturn (code : Z).

(** [fill_in_fds:], lines 649-659. *)
Definition fill_in_fds (this : libwebsocket_context) (wsi' : list Z) (newfd : Z)
  : option libwebsocket_context :=
  fds' ← array_set (fds this) (fds_count this)
                   {| fd := newfd; events := POLLIN cfg; revents := 0 |};
  Some {| fds := fds'; wsi := wsi';
          fds_count := fds_count this + 1;
          count_protocols := count_protocols this;
          ctx_use_ssl := ctx_use_ssl this |}.

(** One iteration of the accept loop of [libwebsocket_create_server],
    lines 535-661. *)
Definition accept_slot
    (this : libwebsocket_context) (heap : gmap Z libwebsocket)
    (client : nat)
  : option (accept_exit * libwebsocket_context * gmap Z libwebsocket
            * list event) :=
  pfd ← fds this !! client;
  if negb (Z.land (c_not (revents pfd)) (POLLIN cfg) =? 0)%Z then
    Some (AcceptContinue, this, heap, [])
  else
    let newfd := sys_accept env (fd pfd) in
    if (newfd <? 0)%Z then
      Some (AcceptContinue, this, heap,
            [EvAccept (fd pfd); EvLog "ERROR on accept"])
    else if bool_decide (MAX_CLIENTS cfg ≤ fds_count this) then
      Some (AcceptContinue, this, heap,
            [EvAccept (fd pfd); EvLog "too busy"; EvClose newfd])
    else if negb (bool_decide (client = 0)) then
      wsi' ← array_set (wsi this) (fds_count this) (Z.of_nat client - 1)%Z;
      this' ← fill_in_fds this wsi' newfd;
      Some (AcceptContinue, this', heap, [EvAccept (fd pfd)])
    else
      let p := sys_malloc env heap in
      wsi' ← array_set (wsi this) (fds_count this) p;
      let this1 := {| fds := fds this; wsi := wsi';
                      fds_count := fds_count this;
                      count_protocols := count_protocols this;
                      ctx_use_ssl := ctx_use_ssl this |} in
      if (p =? 0)%Z then
        Some (AcceptReturn (-1), this1, heap, [EvAccept (fd pfd)])
      else
        let s := SSL_new env newfd in
        if ctx_use_ssl this && (s =? 0)%Z then
          Some (AcceptContinue, this1, heap,
                [EvAccept (fd pfd); EvLog "SSL_new failed"; EvFree p])
        else if ctx_use_ssl this && negb (SSL_accept env s =? 1)%Z then
          Some (AcceptContinue, this1, heap,
                [EvAccept (fd pfd); EvSSLFree s; EvFree p])
        else
          let r := {| sock := newfd;
                      ssl := if ctx_use_ssl this then s else 0%Z;
                      state := WSI_STATE_HTTP;
                      name_buffer_pos := 0;
                      utf8_token :=
                        replicate (WSI_TOKEN_COUNT cfg)
                                  {| token := 0; token_len := 0 |};
                      protocol := 0;
                      user_space := 0;
                      ietf_spec_revision := 76 |} in
          this' ← fill_in_fds this1 wsi' newfd;
          Some (AcceptContinue, this', <[p := r]> heap, [EvAccept (fd pfd)]).

(** The accept loop, lines 535-661, over the slots [clients]. *)
Fixpoint accept_loop
    (clients : list nat)
    (this : libwebsocket_context) (heap : gmap Z libwebsocket)
  : option (accept_exit * libwebsocket_context * gmap Z libwebsocket
            * list event) :=
  match clients with
  | [] => Some (AcceptContinue, this, heap, [])
  | client :: rest =>
      '(exit, this1, heap1, evs1) ← accept_slot this heap client;
      match exit with
      | AcceptContinue =>
          '(exit2, this2, heap2, evs2) ← accept_loop rest this1 heap1;
          Some (exit2, this2, heap2, evs1 ++ evs2)
      | AcceptReturn code =>
          Some (AcceptReturn code, this1, heap1, evs1)
      end
  end.

Definition accept_phase
    (this : libwebsocket_context) (heap : gmap Z libwebsocket) :=
  accept_loop (seq 0 (count_protocols this + 1)) this heap.

(** How the set-up of the table leaves: [return -1], or on to the
    [fork]. *)
Inductive setup_exit :=
| SetupReturn (code : Z)
| SetupReady (this : libwebsocket_context)
             (protocols : list libwebsocket_protocols).

(** The loop that sets up the per-protocol broadcast sockets,
    lines 420-466.  [rest] is the part of the array from
    [protocols[this->count_protocols]] on; running off the array is a
    fault. *)
Fixpoint setup_protocols
    (rest : list libwebsocket_protocols) (server : Z)
    (this : libwebsocket_context)
    (protocols : list libwebsocket_protocols) : option setup_exit :=
  match rest with
  | [] => None
  | p :: rest' =>
      if (callback p =? 0)%Z then Some (SetupReady this protocols)
      else
        let i := count_protocols this in
        let s := sys_socket env i in
        if (s <? 0)%Z then Some (SetupReturn (-1))
        else if (sys_bind env s <? 0)%Z then Some (SetupReturn (-1))
        else
          let '(res, port) := sys_getsockname env s in
          if (res <? 0)%Z then Some (SetupReturn (-1))
          else
            old ← fds this !! fds_count this;
            fds' ← array_set (fds this) (fds_count this)
                     {| fd := s; events := POLLIN cfg;
                        revents := revents old |};
            wsi' ← array_set (wsi this) (fds_count this) 0%Z;
            setup_protocols rest' server
              {| fds := fds'; wsi := wsi';
                 fds_count := fds_count this + 1;
                 count_protocols := count_protocols this + 1;
                 ctx_use_ssl := ctx_use_ssl this |}
              (<[i := {| callback := callback p;
                         owning_server := server;
                         protocol_index := Z.of_nat i;
                         broadcast_socket_port := port;
                         broadcast_socket_user_fd :=
                           broadcast_socket_user_fd p |}]> protocols)
  end.

(** The set-up of the poll table in [libwebsocket_create_server],
    lines 407-466.  [server] is the address [this]; [fds0] and [wsi0] are
    the arrays of the freshly allocated context, [sockfd] the listening
    socket. *)
Definition create_server_table
    (server : Z) (fds0 : list pollfd) (wsi0 : list Z) (sockfd : Z)
    (protocols : list libwebsocket_protocols) : option setup_exit :=
  old ← fds0 !! 0;
  fds1 ← array_set fds0 0
           {| fd := sockfd; events := POLLIN cfg; revents := revents old |};
  setup_protocols protocols server
    {| fds := fds1; wsi := wsi0; fds_count := 1; count_protocols := 0;
       ctx_use_ssl := use_ssl cfg |}
    protocols.

End Service.

(** ** A concrete server, used to run the definitions

    Linux values of the [<poll.h>] bits, a 64-bit [size_t], and a small
    table of seven slots serving two protocols. *)
Definition demo_cfg : lws_config :=
  {| LWS_MAX_PROTOCOLS := 10; MAX_CLIENTS := 7; WSI_TOKEN_COUNT := 2;
     POLLIN := 1; POLLERR := 8; POLLHUP := 16;
     size_t_bits := 64; use_ssl := false |}.

(** An environment in which every read fails: [read] and [recv] return
    [-1]; [accept] yields descriptor [20], [malloc] address [16384]. *)
Definition demo_env_failing : environment :=
  {| sys_read := λ _, ((-1)%Z, []);
     sys_recv := λ _, ((-1)%Z, []);
     SSL_read := λ _, ((-1)%Z, []);
     SSL_get_fd := λ s, s;
     sys_accept := λ _, 20%Z;
     sys_malloc := λ _, 16384%Z;
     SSL_new := λ _, 0%Z;
     SSL_accept := λ _, 1%Z;
     sys_send := λ _ _ len, len;
     sys_socket := λ i, (Z.of_nat i + 4)%Z;
     sys_bind := λ _, 0%Z;
     sys_getsockname := λ s, (0%Z, (s + 40000)%Z);
     libwebsocket_read := λ heap _ _ _, (heap, [], 0%Z) |}.

(** An environment in which [read] delivers the two bytes of "hi", and
    [recv] reports end of stream. *)
Definition demo_env : environment :=
  {| sys_read := λ _, (2%Z, [104; 105]%Z);
     sys_recv := λ _, (0%Z, []);
     SSL_read := λ _, (0%Z, []);
     SSL_get_fd := λ s, s;
     sys_accept := λ _, 20%Z;
     sys_malloc := λ _, 16384%Z;
     SSL_new := λ _, 0%Z;
     SSL_accept := λ _, 1%Z;
     sys_send := λ _ _ len, len;
     sys_socket := λ i, (Z.of_nat i + 4)%Z;
     sys_bind := λ _, 0%Z;
     sys_getsockname := λ s, (0%Z, (s + 40000)%Z);
     libwebsocket_read := λ heap _ _ _, (heap, [], 0%Z) |}.

(** Two protocols and the terminating entry, as the service process sees
    them after set-up ([broadcast_socket_user_fd] still [0]). *)
Definition demo_protocols : list libwebsocket_protocols :=
  [ {| callback := 700; owning_server := 1000; protocol_index := 0;
       broadcast_socket_port := 40004; broadcast_socket_user_fd := 0 |};
    {| callback := 701; owning_server := 1000; protocol_index := 1;
       broadcast_socket_port := 40005; broadcast_socket_user_fd := 0 |};
    {| callback := 0; owning_server := 0; protocol_index := 0;
       broadcast_socket_port := 0; broadcast_socket_user_fd := 0 |} ].

(** The table a user hands to [libwebsocket_create_server]. *)
Definition demo_user_protocols : list libwebsocket_protocols :=
  [ {| callback := 700; owning_server := 0; protocol_index := 0;
       broadcast_socket_port := 0; broadcast_socket_user_fd := 0 |};
    {| callback := 701; owning_server := 0; protocol_index := 0;
       broadcast_socket_port := 0; broadcast_socket_user_fd := 0 |};
    {| callback := 0; owning_server := 0; protocol_index := 0;
       broadcast_socket_port := 0; broadcast_socket_user_fd := 0 |} ].

Definition demo_record (s : Z) (st : wsi_state) (proto : nat) (user : Z)
  : libwebsocket :=
  {| sock := s; ssl := 0; state := st; name_buffer_pos := 0;
     utf8_token := [ {| token := 0; token_len := 0 |};
                     {| token := 0; token_len := 0 |} ];
     protocol := proto; user_space := user; ietf_spec_revision := 76 |}.

(** Three clients: two established, on protocols 0 and 1, and one still in
    the handshake. *)
Definition demo_heap : gmap Z libwebsocket :=
  <[4096%Z := demo_record 7 WSI_STATE_ESTABLISHED 0 4200]>
  (<[8192%Z := demo_record 8 WSI_STATE_ESTABLISHED 1 8300]>
  (<[12288%Z := demo_record 9 WSI_STATE_HTTP 0 0]> ∅)).

(** One established client whose protocol pointer designates the
    terminating entry of [demo_protocols], which has no callback. *)
Definition demo_heap_no_callback : gmap Z libwebsocket :=
  {[ 4096%Z := demo_record 7 WSI_STATE_ESTABLISHED 2 4200 ]}.

Definition demo_pollfd (s r : Z) : pollfd :=
  {| fd := s; events := 1; revents := r |}.

(** A full table: the listener, the two rendezvous listeners, one accepted
    rendezvous connection for protocol 0 (readable), and the three clients
    (all readable). *)
Definition demo_this : libwebsocket_context :=
  {| fds := [ demo_pollfd 3 0; demo_pollfd 4 0; demo_pollfd 5 0;
              demo_pollfd 6 1; demo_pollfd 7 1; demo_pollfd 8 1;
              demo_pollfd 9 1 ];
     wsi := [ 0; 0; 0; 0; 4096; 8192; 12288 ]%Z;
     fds_count := 7; count_protocols := 2; ctx_use_ssl := false |}.

(** The same table with a pending connection on the listener. *)
Definition demo_this_full_accept : libwebsocket_context :=
  {| fds := [ demo_pollfd 3 1; demo_pollfd 4 0; demo_pollfd 5 0;
              demo_pollfd 6 0; demo_pollfd 7 0; demo_pollfd 8 0;
              demo_pollfd 9 0 ];
     wsi := [ 0; 0; 0; 0; 4096; 8192; 12288 ]%Z;
     fds_count := 7; count_protocols := 2; ctx_use_ssl := false |}.

(** A table with only the three listeners in use; the rendezvous listener
    of protocol 0 reports a hang-up and nothing to read. *)
Definition demo_this_hup : libwebsocket_context :=
  {| fds := [ demo_pollfd 3 0; demo_pollfd 4 16; demo_pollfd 5 0;
              demo_pollfd 0 0; demo_pollfd 0 0; demo_pollfd 0 0;
              demo_pollfd 0 0 ];
     wsi := [ 0; 0; 0; 0; 0; 0; 0 ]%Z;
     fds_count := 3; count_protocols := 2; ctx_use_ssl := false |}.

(** The same, with a connection pending on the rendezvous listener of
    protocol 1. *)
Definition demo_this_rendezvous : libwebsocket_context :=
  {| fds := [ demo_pollfd 3 0; demo_pollfd 4 0; demo_pollfd 5 1;
              demo_pollfd 0 0; demo_pollfd 0 0; demo_pollfd 0 0;
              demo_pollfd 0 0 ];
     wsi := [ 0; 0; 0; 0; 0; 0; 0 ]%Z;
     fds_count := 3; count_protocols := 2; ctx_use_ssl := false |}.

Definition demo_servers : gmap Z libwebsocket_context :=
  {[ 1000%Z := demo_this ]}.

(** The arrays of a context fresh from [malloc]: seven slots of
    arbitrary content. *)
Definition demo_raw_fds : list pollfd := replicate 7 (demo_pollfd 99 99).
Definition demo_raw_wsi : list Z := replicate 7 77%Z.


(** The table of the demo server right after set-up, the arrays being
    [demo_raw_fds] and [demo_raw_wsi] and the listener descriptor [3]. *)
Definition demo_after_setup : libwebsocket_context :=
  {| fds := [ demo_pollfd 3 99; demo_pollfd 4 99; demo_pollfd 5 99;
              demo_pollfd 99 99; demo_pollfd 99 99; demo_pollfd 99 99;
              demo_pollfd 99 99 ];
     wsi := [ 77; 0; 0; 77; 77; 77; 77 ]%Z;
     fds_count := 3; count_protocols := 2; ctx_use_ssl := false |}.

(** The BROADCAST call client [4096] of the demo server receives. *)
Definition demo_broadcast_call (buf : list Z) (len : Z) : callback_call :=
  {| cb_fn := 700; cb_wsi := 4096; cb_state := WSI_STATE_ESTABLISHED;
     cb_reason := LWS_CALLBACK_BROADCAST; cb_user := 4200;
     cb_in := Some buf; cb_len := len |}.

(** The CLOSED call client [4096] of the demo server receives. *)
Definition demo_closed_call : callback_call :=
  {| cb_fn := 700; cb_wsi := 4096; cb_state := WSI_STATE_DEAD_SOCKET;
     cb_reason := LWS_CALLBACK_CLOSED; cb_user := 4200;
     cb_in := None; cb_len := 0 |}.

(** ** The rest of the file: the server loop, its fatal exit, the parent
    side of the [fork], and [libwebsockets_get_protocol] *)

(** [libwebsockets_get_protocol], lines 696-700. *)
Definition libwebsockets_get_protocol
    (heap : gmap Z libwebsocket) (w : Z) : option nat :=
  r ← heap !! w; Some (protocol r).

(** What one call of [poll] hands back: its return value and the
    [revents] it reports for each entry. *)
Record poll_result := {
  poll_return : Z;
  poll_revents : nat → Z
}.

(** [poll(this->fds, this->fds_count, 1000)], line 524: the kernel writes
    the [revents] of the first [fds_count] entries. *)
Definition apply_poll (this : libwebsocket_context) (pr : poll_result)
  : libwebsocket_context :=
  {| fds := imap (λ j p, if bool_decide (j < fds_count this)
                         then {| fd := fd p; events := events p;
                                 revents := poll_revents pr j |}
                         else p) (fds this);
     wsi := wsi this;
     fds_count := fds_count this;
     count_protocols := count_protocols this;
     ctx_use_ssl := ctx_use_ssl this |}.

(** The layout of the table as the source describes it at lines 399-405:
    listener and rendezvous listeners first, connections after them, all
    within the [MAX_CLIENTS] entries of the two arrays. *)
Definition table_layout (cfg : lws_config) (this : libwebsocket_context)
  : Prop :=
  count_protocols this < fds_count this ∧
  fds_count this ≤ MAX_CLIENTS cfg ∧
  MAX_CLIENTS cfg ≤ length (fds this) ∧
  MAX_CLIENTS cfg ≤ length (wsi this).

Global Instance table_layout_dec cfg this : Decision (table_layout cfg this).
Proof. unfold table_layout. apply _. Defined.

(** How one turn of the server loop leaves: on to the next turn, the jump
    to [fatal], or [return -1]. *)
Inductive iteration_exit :=
| IterContinue
| IterFatal
| IterReturn (code : Z).

Section Server.

Variable cfg : lws_config.
Variable env : environment.

(** [connect], called by the parent on a socket and a loopback port. *)
Variable sys_connect : Z → Z → Z.

(** The loop under [fatal:], lines 672-673, up to [kill(0, SIGTERM)]. *)
Definition fatal_cleanup (this : libwebsocket_context)
  : option (list event) :=
  for_each (seq 0 (fds_count this))
           (λ _, p ← fds this !! 0; Some [EvClose (fd p)]).

(** One turn of the [while (1)] loop of [libwebsocket_create_server],
    lines 522-667, on what [poll] reports. *)
Definition service_iteration
    (protocols : list libwebsocket_protocols)
    (this : libwebsocket_context) (heap : gmap Z libwebsocket)
    (pr : poll_result)
  : option (iteration_exit * libwebsocket_context * gmap Z libwebsocket
            * list event) :=
  let this1 := apply_poll this pr in
  let n := poll_return pr in
  dead ← (if (n <? 0)%Z then Some true
          else p ← fds this1 !! 0;
               Some (negb (Z.land (revents p)
                                  (Z.lor (POLLERR cfg) (POLLHUP cfg)) =? 0)%Z));
  if dead : bool then
    closes ← fatal_cleanup this1;
    Some (IterFatal, this1, heap, EvLog "Listen Socket dead" :: closes)
  else if (n =? 0)%Z then
    Some (IterContinue, this1, heap, [])
  else
    '(exit, this2, heap2, evs2) ← accept_phase cfg env this1 heap;
    match exit with
    | AcceptReturn code => Some (IterReturn code, this2, heap2, evs2)
    | AcceptContinue =>
        '(this3, heap3, evs3) ←
          libwebsocket_poll_connections cfg env protocols this2 heap2;
        Some (IterContinue, this3, heap3, evs2 ++ evs3)
    end.

(** The loop of the parent after the [fork], lines 490-510, over the
    slots [clients]: one socket per protocol, connected to the port the
    set-up recorded.  The [socket] calls of the parent follow those of
    the set-up, so the one for slot [client] is call number
    [count + client - 1].  The result is the value returned ([-1], or
    [0] at line 514), the protocol array, and the connections made as
    pairs of descriptor and port. *)
Fixpoint connect_loop
    (clients : list nat) (count : nat)
    (protocols : list libwebsocket_protocols)
  : option (Z * list libwebsocket_protocols * list (Z * Z)) :=
  match clients with
  | [] => Some (0%Z, protocols, [])
  | client :: rest =>
      let s := sys_socket env (count + client - 1) in
      if (s <? 0)%Z then Some ((-1)%Z, protocols, [])
      else
        p ← protocols !! (client - 1);
        if (sys_connect s (broadcast_socket_port p) <? 0)%Z
        then Some ((-1)%Z, protocols, [])
        else
          '(code, protocols', conns) ←
            connect_loop rest count
              (<[client - 1 :=
                   {| callback := callback p;
                      owning_server := owning_server p;
                      protocol_index := protocol_index p;
                      broadcast_socket_port := broadcast_socket_port p;
                      broadcast_socket_user_fd := s |}]> protocols);
          Some (code, protocols', (s, broadcast_socket_port p) :: conns)
  end.

(** The parent side of [libwebsocket_create_server], lines 479-515. *)
Definition connect_broadcast_sockets
    (this : libwebsocket_context)
    (protocols : list libwebsocket_protocols) :=
  connect_loop (seq 1 (count_protocols this)) (count_protocols this)
               protocols.

End Server.

(** The [while (1)] loop of [libwebsocket_create_server], lines 522-667,
    run over the turns listed in [script]: a finite prefix of the run of
    the server.  Each turn comes with what [poll] reports and with what
    the operating system, the TLS library and the engine answer during
    that turn, so a descriptor may deliver data on one turn and end of
    stream on a later one. *)
Fixpoint server_loop
    (cfg : lws_config)
    (protocols : list libwebsocket_protocols)
    (script : list (poll_result * environment))
    (this : libwebsocket_context) (heap : gmap Z libwebsocket)
  : option (iteration_exit * libwebsocket_context * gmap Z libwebsocket
            * list event) :=
  match script with
  | [] => Some (IterContinue, this, heap, [])
  | (pr, env) :: rest =>
      '(exit, this1, heap1, evs1) ←
        service_iteration cfg env protocols this heap pr;
      match exit with
      | IterContinue =>
          '(exit2, this2, heap2, evs2) ←
            server_loop cfg protocols rest this1 heap1;
          Some (exit2, this2, heap2, evs1 ++ evs2)
      | _ => Some (exit, this1, heap1, evs1)
      end
  end.

(** Poll results for the demo server: nothing ready; the listener hung
    up; everything from slot 3 on readable. *)
Definition demo_poll_idle : poll_result :=
  {| poll_return := 0; poll_revents := λ _, 0%Z |}.

Definition demo_poll_listener_dead : poll_result :=
  {| poll_return := 1; poll_revents := λ j, if decide (j = 0) then 16%Z else 0%Z |}.

Definition demo_poll_clients : poll_result :=
  {| poll_return := 4;
     poll_revents := λ j, if decide (3 ≤ j) then 1%Z else 0%Z |}.

(** A pending connection on the listener, and a readable client. *)
Definition demo_poll_accept : poll_result :=
  {| poll_return := 2;
     poll_revents := λ j, if decide (j = 0) then 1%Z
                          else if decide (j = 4) then 1%Z else 0%Z |}.

(** A table with room: the three listeners, one rendezvous connection
    and one established client. *)
Definition demo_this_room : libwebsocket_context :=
  {| fds := [ demo_pollfd 3 0; demo_pollfd 4 0; demo_pollfd 5 0;
              demo_pollfd 6 0; demo_pollfd 7 0; demo_pollfd 0 0;
              demo_pollfd 0 0 ];
     wsi := [ 0; 0; 0; 0; 4096; 0; 0 ]%Z;
     fds_count := 5; count_protocols := 2; ctx_use_ssl := false |}.

(** [connect] always succeeds. *)
Definition demo_connect : Z → Z → Z := λ _ _, 0%Z.

(** The parent's view: its copy of the table stays as set-up left it. *)
Definition demo_servers_parent : gmap Z libwebsocket_context :=
  {[ 1000%Z := demo_after_setup ]}.

(** [demo_this_room] with TLS on and a connection pending on the
    listener. *)
Definition demo_this_tls : libwebsocket_context :=
  {| fds := [ demo_pollfd 3 1; demo_pollfd 4 0; demo_pollfd 5 0;
              demo_pollfd 6 0; demo_pollfd 7 0; demo_pollfd 0 0;
              demo_pollfd 0 0 ];
     wsi := [ 0; 0; 0; 0; 4096; 0; 0 ]%Z;
     fds_count := 5; count_protocols := 2; ctx_use_ssl := true |}.

(** The client in slot 4 hung up. *)
Definition demo_poll_client_hup : poll_result :=
  {| poll_return := 1;
     poll_revents := λ j, if decide (j = 4) then 16%Z else 0%Z |}.

(** [demo_env] out of memory: [malloc] returns [NULL]. *)
Definition demo_env_no_memory : environment :=
  {| sys_read := sys_read demo_env; sys_recv := sys_recv demo_env;
     SSL_read := SSL_read demo_env; SSL_get_fd := SSL_get_fd demo_env;
     sys_accept := sys_accept demo_env; sys_malloc := λ _, 0%Z;
     SSL_new := SSL_new demo_env; SSL_accept := SSL_accept demo_env;
     sys_send := sys_send demo_env; sys_socket := sys_socket demo_env;
     sys_bind := sys_bind demo_env;
     sys_getsockname := sys_getsockname demo_env;
     libwebsocket_read := libwebsocket_read demo_env |}.

(** The rendezvous connection in slot 3 hung up. *)
Definition demo_poll_rendezvous_hup : poll_result :=
  {| poll_return := 1;
     poll_revents := λ j, if decide (j = 3) then 16%Z else 0%Z |}.

(** ** Properties *)

Lemma c_not_is_one (x : Z) : (c_not x =? 1)%Z = (x =? 0)%Z.
Proof. unfold c_not. by destruct (x =? 0)%Z. Qed.

Lemma callbacks_of_app (a b : list event) :
  callbacks_of (a ++ b) = callbacks_of a ++ callbacks_of b.
Proof. unfold callbacks_of. apply omap_app. Qed.

Lemma callbacks_of_free_tokens (ts : list lws_tokens) :
  callbacks_of (free_tokens ts) = [].
Proof.
  induction ts as [|t ts IH]; [done|].
  unfold free_tokens in *. cbn [flat_map].
  rewrite callbacks_of_app, IH.
  by destruct (token t =? 0)%Z.
Qed.

(** A callback recorded by a counted loop was recorded by one of its
    iterations. *)
Lemma for_each_callbacks ns body evs c :
  for_each ns body = Some evs →
  c ∈ callbacks_of evs →
  ∃ n ev, n ∈ ns ∧ body n = Some ev ∧ c ∈ callbacks_of ev.
Proof.
  revert evs. induction ns as [|n ns IH]; intros evs Hrun Hc; simpl in Hrun.
  - simplify_eq. by apply elem_of_nil in Hc.
  - destruct (body n) as [ev|] eqn:Hb; [|done]. simpl in Hrun.
    destruct (for_each ns body) as [evs'|] eqn:Hr; [|done]. simpl in Hrun.
    simplify_eq. rewrite callbacks_of_app in Hc.
    apply elem_of_app in Hc as [Hc|Hc].
    + exists n, ev. split; [left|done].
    + destruct (IH evs' eq_refl Hc) as (m & ev' & Hm & Hbm & Hcm).
      exists m, ev'. split; [by right|done].
Qed.

Lemma for_each_ext ns f g :
  (∀ n, n ∈ ns → f n = g n) → for_each ns f = for_each ns g.
Proof.
  induction ns as [|n ns IH]; intros Hfg; [done|]. simpl.
  rewrite (Hfg n) by left. rewrite IH; [done|].
  intros m Hm. apply Hfg. by right.
Qed.

(** One more round of the copy loop: the window of shifted entries grows
    by one on the left. *)
Lemma shift_window_step {A} (l l' : list A) (n k : nat) (x : A) :
  l !! (n + 1) = Some x →
  n < length l →
  (∀ j, l' !! j = if decide (n + 1 ≤ j < n + 1 + k)
                  then <[n:=x]> l !! (j + 1) else <[n:=x]> l !! j) →
  ∀ j, l' !! j = if decide (n ≤ j < n + S k)
                 then l !! (j + 1) else l !! j.
Proof.
  intros Hx Hn Hl' j. rewrite Hl'.
  destruct (decide (j = n)) as [->|Hne].
  - rewrite decide_False by lia. rewrite decide_True by lia.
    rewrite list_lookup_insert_eq by done. by rewrite Hx.
  - repeat case_decide; try lia;
      by rewrite list_lookup_insert_ne by lia.
Qed.

(** The copy loop under [nuke_this] runs to its end when the entries it
    reads exist, and moves the entries [n+1 .. n+k] of both arrays one
    place down, leaving the others and the counts alone. *)
Lemma shift_down_spec (k : nat) :
  ∀ n this,
    n + k < length (fds this) → n + k < length (wsi this) →
    ∃ this',
      shift_down k n this = Some this' ∧
      fds_count this' = fds_count this ∧
      count_protocols this' = count_protocols this ∧
      length (fds this') = length (fds this) ∧
      length (wsi this') = length (wsi this) ∧
      (∀ j, fds this' !! j = if decide (n ≤ j < n + k)
                             then fds this !! (j + 1) else fds this !! j) ∧
      (∀ j, wsi this' !! j = if decide (n ≤ j < n + k)
                             then wsi this !! (j + 1) else wsi this !! j).
Proof.
  induction k as [|k IH]; intros n this Hf Hw.
  - exists this. simpl. repeat split; try done.
    all: intros j; by rewrite decide_False by lia.
  - simpl.
    destruct (lookup_lt_is_Some_2 (fds this) (n + 1)) as [f Hfd]; [lia|].
    destruct (lookup_lt_is_Some_2 (wsi this) (n + 1)) as [w Hwd]; [lia|].
    rewrite Hfd, Hwd. simpl. unfold array_set.
    rewrite !decide_True by lia. simpl.
    destruct (IH (n + 1)
                {| fds := <[n:=f]> (fds this); wsi := <[n:=w]> (wsi this);
                   fds_count := fds_count this;
                   count_protocols := count_protocols this;
                   ctx_use_ssl := ctx_use_ssl this |})
      as (this' & Hrun & Hc & Hp & Hlf & Hlw & Hfs & Hws).
    { simpl. rewrite length_insert. lia. }
    { simpl. rewrite length_insert. lia. }
    simpl in *. rewrite length_insert in Hlf. rewrite length_insert in Hlw.
    exists this'. repeat split; try done.
    + eapply shift_window_step; [done|lia|done].
    + eapply shift_window_step; [done|lia|done].
Qed.

Section Properties.

Variable cfg : lws_config.
Variable env : environment.

Lemma fanout_slot_inv protocols this heap sentinel buf len n ev c :
  fanout_slot cfg protocols this heap sentinel buf len n = Some ev →
  c ∈ callbacks_of ev →
  ∃ w r p,
    wsi this !! n = Some w ∧ (LWS_MAX_PROTOCOLS cfg ≤ w)%Z ∧
    heap !! w = Some r ∧ state r = WSI_STATE_ESTABLISHED ∧
    protocols !! protocol r = Some p ∧ protocol_index p = sentinel ∧
    c = {| cb_fn := callback p; cb_wsi := w; cb_state := state r;
           cb_reason := LWS_CALLBACK_BROADCAST; cb_user := user_space r;
           cb_in := Some buf; cb_len := len |}.
Proof.
  unfold fanout_slot. intros Hrun Hc.
  destruct (wsi this !! n) as [w|] eqn:Hw; [|done]. simpl in Hrun.
  destruct (w <? LWS_MAX_PROTOCOLS cfg)%Z eqn:Hlt.
  { simplify_eq. by apply elem_of_nil in Hc. }
  destruct (heap !! w) as [r|] eqn:Hr; [|done]. simpl in Hrun.
  destruct (bool_decide (state r = WSI_STATE_ESTABLISHED)) eqn:Hst; simpl in Hrun.
  2:{ simplify_eq. by apply elem_of_nil in Hc. }
  destruct (protocols !! protocol r) as [p|] eqn:Hp; [|done]. simpl in Hrun.
  destruct (protocol_index p =? sentinel)%Z eqn:Hidx; simpl in Hrun.
  2:{ simplify_eq. by apply elem_of_nil in Hc. }
  destruct (callback p =? 0)%Z; [done|]. simplify_eq.
  apply list_elem_of_singleton in Hc.
  apply bool_decide_eq_true in Hst. apply Z.eqb_eq in Hidx.
  apply Z.ltb_ge in Hlt.
  exists w, r, p. by repeat split.
Qed.

Lemma inloop_slot_inv protocols this heap proto buf len n ev c :
  inloop_slot cfg protocols this heap proto buf len n = Some ev →
  c ∈ callbacks_of ev →
  ∃ w r p,
    wsi this !! n = Some w ∧ (LWS_MAX_PROTOCOLS cfg ≤ w)%Z ∧
    heap !! w = Some r ∧ state r = WSI_STATE_ESTABLISHED ∧
    protocol r = proto ∧ protocols !! protocol r = Some p ∧
    c = {| cb_fn := callback p; cb_wsi := w; cb_state := state r;
           cb_reason := LWS_CALLBACK_BROADCAST; cb_user := user_space r;
           cb_in := Some buf; cb_len := len |}.
Proof.
  unfold inloop_slot. intros Hrun Hc.
  destruct (wsi this !! n) as [w|] eqn:Hw; [|done]. simpl in Hrun.
  destruct (w <? LWS_MAX_PROTOCOLS cfg)%Z eqn:Hlt.
  { simplify_eq. by apply elem_of_nil in Hc. }
  destruct (heap !! w) as [r|] eqn:Hr; [|done]. simpl in Hrun.
  destruct (bool_decide (state r = WSI_STATE_ESTABLISHED)) eqn:Hst; simpl in Hrun.
  2:{ simplify_eq. by apply elem_of_nil in Hc. }
  destruct (bool_decide (protocol r = proto)) eqn:Hpr; simpl in Hrun.
  2:{ simplify_eq. by apply elem_of_nil in Hc. }
  destruct (protocols !! protocol r) as [p|] eqn:Hp; [|done]. simpl in Hrun.
  destruct (callback p =? 0)%Z; [done|]. simplify_eq.
  apply list_elem_of_singleton in Hc.
  apply bool_decide_eq_true in Hst. apply bool_decide_eq_true in Hpr.
  apply Z.ltb_ge in Hlt.
  exists w, r, p. by repeat split.
Qed.

(** The value a [size_t] holds is never below zero, whatever was stored
    into it. *)
Lemma to_size_t_nonneg (res : Z) : (to_size_t cfg res <? 0)%Z = false.
Proof.
  apply Z.ltb_ge. unfold to_size_t.
  apply Z.mod_pos_bound. by apply Z.pow_pos_nonneg.
Qed.

(** Teardown of a sentinel returns at once. *)
Lemma close_sentinel protocols heap w :
  (w < LWS_MAX_PROTOCOLS cfg)%Z →
  libwebsocket_close_and_free_session cfg env protocols heap w
  = Some (heap, []).
Proof.
  intros Hlt. unfold libwebsocket_close_and_free_session.
  apply Z.ltb_lt in Hlt. by rewrite Hlt.
Qed.

(** Teardown of a record: what is left of the store, and the callbacks
    that were made. *)
Lemma close_record protocols heap w heap' evs :
  (LWS_MAX_PROTOCOLS cfg ≤ w)%Z →
  libwebsocket_close_and_free_session cfg env protocols heap w
  = Some (heap', evs) →
  ∃ r p,
    heap !! w = Some r ∧ protocols !! protocol r = Some p ∧
    heap' = delete w heap ∧
    callbacks_of evs =
      if negb (callback p =? 0)%Z
         && bool_decide (state r = WSI_STATE_ESTABLISHED)
      then [ {| cb_fn := callback p; cb_wsi := w;
                cb_state := WSI_STATE_DEAD_SOCKET;
                cb_reason := LWS_CALLBACK_CLOSED;
                cb_user := user_space r; cb_in := None; cb_len := 0 |} ]
      else [].
Proof.
  intros Hge. unfold libwebsocket_close_and_free_session.
  apply Z.ltb_ge in Hge. rewrite Hge. intros Hrun.
  destruct (heap !! w) as [r|] eqn:Hr; [|done]. simpl in Hrun.
  destruct (protocols !! protocol r) as [p|] eqn:Hp; [|done]. simpl in Hrun.
  simplify_eq. exists r, p. repeat split; try done.
  rewrite !callbacks_of_app, callbacks_of_free_tokens.
  destruct (negb (callback p =? 0)%Z
            && bool_decide (state r = WSI_STATE_ESTABLISHED)),
           (use_ssl cfg), (user_space r =? 0)%Z; reflexivity.
Qed.

(** Once a record has been torn down, its address can no longer be read. *)
Lemma close_twice_faults protocols heap w heap' evs :
  (LWS_MAX_PROTOCOLS cfg ≤ w)%Z →
  libwebsocket_close_and_free_session cfg env protocols heap w
  = Some (heap', evs) →
  libwebsocket_close_and_free_session cfg env protocols heap' w = None.
Proof.
  intros Hge Hrun.
  destruct (close_record _ _ _ _ _ Hge Hrun) as (r & p & _ & _ & -> & _).
  unfold libwebsocket_close_and_free_session.
  apply Z.ltb_ge in Hge. rewrite Hge.
  by rewrite lookup_delete_eq.
Qed.

(** C1.  Broadcast targeting.  Whichever way a payload is broadcast --
    by the in-loop path of [libwebsockets_broadcast] for the protocol
    [proto], or by the service phase reading a rendezvous slot holding
    the sentinel [sentinel] -- every callback that fires is a BROADCAST
    on a record that is ESTABLISHED and whose protocol is the requested
    one (the pointer [proto], respectively the protocol index
    [sentinel]). *)
Theorem broadcast_targeting
    (protocols : list libwebsocket_protocols)
    (servers : gmap Z libwebsocket_context)
    (this : libwebsocket_context)
    (heap : gmap Z libwebsocket) (c : callback_call) :
  (∀ proto buf len res evs,
      libwebsockets_broadcast cfg env protocols servers heap proto buf len
      = Some (res, evs) →
      c ∈ callbacks_of evs →
      cb_reason c = LWS_CALLBACK_BROADCAST ∧
      cb_state c = WSI_STATE_ESTABLISHED ∧
      ∃ r, heap !! cb_wsi c = Some r ∧
           state r = WSI_STATE_ESTABLISHED ∧ protocol r = proto)
  ∧
  (∀ client sentinel exit heap' evs,
      wsi this !! client = Some sentinel →
      (sentinel < LWS_MAX_PROTOCOLS cfg)%Z →
      service_slot cfg env protocols this heap client
      = Some (exit, heap', evs) →
      c ∈ callbacks_of evs →
      cb_reason c = LWS_CALLBACK_BROADCAST ∧
      cb_state c = WSI_STATE_ESTABLISHED ∧
      ∃ r p, heap !! cb_wsi c = Some r ∧
             state r = WSI_STATE_ESTABLISHED ∧
             protocols !! protocol r = Some p ∧
             protocol_index p = sentinel).
Proof.
  split.
  - intros proto buf len res evs Hrun Hc.
    unfold libwebsockets_broadcast in Hrun.
    destruct (protocols !! proto) as [P|]; [|done]. simpl in Hrun.
    destruct (broadcast_socket_user_fd P =? 0)%Z.
    2:{ simplify_eq. by apply elem_of_nil in Hc. }
    destruct (servers !! owning_server P) as [srv|]; [|done]. simpl in Hrun.
    destruct (for_each _ _) as [evs'|] eqn:Hloop; [|done]. simpl in Hrun.
    simplify_eq.
    destruct (for_each_callbacks _ _ _ _ Hloop Hc) as (n & ev & _ & Hb & Hev).
    destruct (inloop_slot_inv _ _ _ _ _ _ _ _ _ Hb Hev)
      as (w & r & p & _ & _ & Hr & Hst & Hpr & _ & ->).
    simpl. rewrite Hst. do 2 (split; [done|]). by exists r.
  - intros client sentinel exit heap' evs Hw Hlt Hrun Hc.
    unfold service_slot in Hrun.
    destruct (fds this !! client) as [pfd|]; [|done]. simpl in Hrun.
    rewrite Hw in Hrun. simpl in Hrun.
    rewrite (close_sentinel _ _ _ Hlt) in Hrun. simpl in Hrun.
    apply Z.ltb_lt in Hlt. rewrite Hlt in Hrun.
    destruct (negb _).
    { simplify_eq. by apply elem_of_nil in Hc. }
    destruct (c_not _ =? 1)%Z.
    { simplify_eq. by apply elem_of_nil in Hc. }
    destruct (sys_read env (fd pfd)) as [res data].
    rewrite to_size_t_nonneg in Hrun.
    destruct (broadcast_fanout _ _ _ _ _ _ _) as [evs'|] eqn:Hloop; [|done].
    simpl in Hrun. simplify_eq.
    change (EvRead (fd pfd) :: evs') with ([EvRead (fd pfd)] ++ evs') in Hc.
    rewrite callbacks_of_app in Hc. simpl in Hc.
    destruct (for_each_callbacks _ _ _ _ Hloop Hc) as (n & ev & _ & Hb & Hev).
    destruct (fanout_slot_inv _ _ _ _ _ _ _ _ _ Hb Hev)
      as (w & r & p & _ & _ & Hr & Hst & Hp & Hidx & ->).
    simpl. rewrite Hst. do 2 (split; [done|]). by exists r, p.
Qed.

(** C2 (as amended).  CLOSED pairing.  Teardown of a connection record
    makes exactly one callback, the protocol's CLOSED on that record,
    when the record was ESTABLISHED at entry and its protocol has a
    callback, and no callback at all otherwise -- in particular none for
    a record in state HTTP or DEAD, whether its protocol has a callback
    or not; the callback sees the record already DEAD. *)
Theorem closed_fires_iff_established
    (protocols : list libwebsocket_protocols)
    (heap : gmap Z libwebsocket) (w : Z)
    (r : libwebsocket) (p : libwebsocket_protocols) :
  (LWS_MAX_PROTOCOLS cfg ≤ w)%Z →
  heap !! w = Some r →
  protocols !! protocol r = Some p →
  ∃ heap' evs,
    libwebsocket_close_and_free_session cfg env protocols heap w
    = Some (heap', evs) ∧
    (length (filter (λ c, cb_reason c = LWS_CALLBACK_CLOSED)
                    (callbacks_of evs)) = 1
     ↔ state r = WSI_STATE_ESTABLISHED ∧ callback p ≠ 0%Z) ∧
    (state r ≠ WSI_STATE_ESTABLISHED → callbacks_of evs = []) ∧
    callbacks_of evs =
      if decide (state r = WSI_STATE_ESTABLISHED ∧ callback p ≠ 0%Z)
      then [ {| cb_fn := callback p; cb_wsi := w;
                cb_state := WSI_STATE_DEAD_SOCKET;
                cb_reason := LWS_CALLBACK_CLOSED;
                cb_user := user_space r; cb_in := None; cb_len := 0 |} ]
      else [].
Proof.
  intros Hge Hr Hp.
  destruct (libwebsocket_close_and_free_session cfg env protocols heap w)
    as [[heap' evs]|] eqn:Hrun.
  2:{ unfold libwebsocket_close_and_free_session in Hrun.
      apply Z.ltb_ge in Hge. rewrite Hge, Hr in Hrun. simpl in Hrun.
      rewrite Hp in Hrun. done. }
  destruct (close_record _ _ _ _ _ Hge Hrun) as (r' & p' & Hr' & Hp' & _ & Hcbs).
  rewrite Hr in Hr'. injection Hr' as <-.
  rewrite Hp in Hp'. injection Hp' as <-.
  exists heap', evs. split; [done|]. rewrite Hcbs.
  destruct (decide (state r = WSI_STATE_ESTABLISHED)) as [Hst|Hst];
    destruct (decide (callback p = 0%Z)) as [Hcb|Hcb].
  - rewrite (bool_decide_eq_true_2 _ Hst).
    rewrite (proj2 (Z.eqb_eq _ _) Hcb). simpl.
    rewrite decide_False by tauto.
    split; [|done]. split; [done|]. intros [_ ?]. done.
  - rewrite (bool_decide_eq_true_2 _ Hst).
    rewrite (proj2 (Z.eqb_neq _ _) Hcb). simpl.
    rewrite decide_True by tauto.
    split; [|done]. by split.
  - rewrite (bool_decide_eq_false_2 _ Hst), andb_false_r.
    rewrite decide_False by tauto.
    split; [|done]. split; [done|]. intros [? _]. done.
  - rewrite (bool_decide_eq_false_2 _ Hst), andb_false_r.
    rewrite decide_False by tauto.
    split; [|done]. split; [done|]. intros [? _]. done.
Qed.

(** C5 (as amended).  Teardown of a sentinel is a no-op: nothing is
    called, the store is unchanged, nothing is released.  Teardown of a
    record makes at most one callback, a CLOSED that sees the record
    DEAD, and frees the record; after that the same address can no longer
    be torn down: the second call reads freed memory. *)
Theorem teardown_sentinel_noop_record_freed
    (protocols : list libwebsocket_protocols)
    (heap : gmap Z libwebsocket) (w : Z) :
  ((w < LWS_MAX_PROTOCOLS cfg)%Z →
   libwebsocket_close_and_free_session cfg env protocols heap w
   = Some (heap, []))
  ∧
  ((LWS_MAX_PROTOCOLS cfg ≤ w)%Z →
   ∀ heap' evs,
     libwebsocket_close_and_free_session cfg env protocols heap w
     = Some (heap', evs) →
     heap' = delete w heap ∧
     length (callbacks_of evs) ≤ 1 ∧
     (∀ c, c ∈ callbacks_of evs →
           cb_reason c = LWS_CALLBACK_CLOSED ∧
           cb_state c = WSI_STATE_DEAD_SOCKET ∧ cb_wsi c = w) ∧
     libwebsocket_close_and_free_session cfg env protocols heap' w = None).
Proof.
  split; [apply close_sentinel|].
  intros Hge heap' evs Hrun.
  pose proof (close_twice_faults _ _ _ _ _ Hge Hrun) as Hagain.
  destruct (close_record _ _ _ _ _ Hge Hrun) as (r & p & _ & _ & -> & Hcbs).
  rewrite Hcbs. split; [done|].
  destruct (negb (callback p =? 0)%Z
            && bool_decide (state r = WSI_STATE_ESTABLISHED)).
  - split; [simpl; lia|]. split; [|done].
    intros c Hc. by apply list_elem_of_singleton in Hc as ->.
  - split; [simpl; lia|]. split; [|done].
    intros c Hc. by apply elem_of_nil in Hc.
Qed.

(** C10.  The two fan-outs agree.  When every established client's
    protocol pointer designates a table entry whose [protocol_index] is
    its position, the in-loop path of [libwebsockets_broadcast] for the
    protocol [P] makes exactly the calls the rendezvous fan-out makes for
    the sentinel [protocol_index P], in the same order. *)
Theorem broadcast_paths_agree
    (protocols : list libwebsocket_protocols)
    (servers : gmap Z libwebsocket_context)
    (this : libwebsocket_context) (heap : gmap Z libwebsocket)
    (proto : nat) (P : libwebsocket_protocols)
    (buf : list Z) (len : Z) :
  protocols !! proto = Some P →
  broadcast_socket_user_fd P = 0%Z →
  servers !! owning_server P = Some this →
  protocol_index P = Z.of_nat proto →
  (∀ n w r,
      n ∈ client_slots this → wsi this !! n = Some w →
      (LWS_MAX_PROTOCOLS cfg ≤ w)%Z → heap !! w = Some r →
      state r = WSI_STATE_ESTABLISHED →
      ∃ p, protocols !! protocol r = Some p ∧
           protocol_index p = Z.of_nat (protocol r)) →
  libwebsockets_broadcast cfg env protocols servers heap proto buf len
  = (evs ← broadcast_fanout cfg protocols this heap (protocol_index P) buf len;
     Some (0%Z, evs)).
Proof.
  intros HP Hfd Hsrv Hidx Htable.
  unfold libwebsockets_broadcast, broadcast_fanout.
  rewrite HP. simpl. rewrite Hfd. simpl. rewrite Hsrv. simpl.
  f_equal.
  apply for_each_ext. intros n Hn.
  unfold inloop_slot, fanout_slot.
  destruct (wsi this !! n) as [w|] eqn:Hw; [|done]. simpl.
  destruct (w <? LWS_MAX_PROTOCOLS cfg)%Z eqn:Hlt; [done|].
  destruct (heap !! w) as [r|] eqn:Hr; [|done]. simpl.
  destruct (bool_decide (state r = WSI_STATE_ESTABLISHED)) eqn:Hst; [|done].
  simpl. apply bool_decide_eq_true in Hst. apply Z.ltb_ge in Hlt.
  destruct (Htable n w r Hn Hw Hlt Hr Hst) as (p & Hp & Hpi).
  rewrite Hp. simpl. rewrite Hpi, Hidx.
  destruct (decide (protocol r = proto)) as [Heq|Hne].
  - rewrite (bool_decide_eq_true_2 _ Heq). simpl.
    rewrite Heq, Z.eqb_refl. done.
  - rewrite (bool_decide_eq_false_2 _ Hne). simpl.
    assert (Z.of_nat (protocol r) ≠ Z.of_nat proto) as Hz by lia.
    apply Z.eqb_neq in Hz. by rewrite Hz.
Qed.

(** The service of a readable rendezvous slot always reaches the fan-out,
    whatever [read] returned: the branch under [len < 0] is never
    taken. *)
Lemma rendezvous_read_always_fans_out
    protocols this heap client pfd w res data :
  fds this !! client = Some pfd →
  wsi this !! client = Some w →
  Z.land (revents pfd) (Z.lor (POLLERR cfg) (POLLHUP cfg)) = 0%Z →
  Z.land (revents pfd) (POLLIN cfg) ≠ 0%Z →
  (w < LWS_MAX_PROTOCOLS cfg)%Z →
  sys_read env (fd pfd) = (res, data) →
  service_slot cfg env protocols this heap client
  = (evs ← broadcast_fanout cfg protocols this heap w data
             (to_size_t cfg res);
     Some (SlotContinue, heap, EvRead (fd pfd) :: evs)).
Proof.
  intros Hfd Hw Herr Hin Hlt Hread.
  unfold service_slot. rewrite Hfd. simpl. rewrite Herr. simpl.
  rewrite c_not_is_one. apply Z.eqb_neq in Hin. rewrite Hin.
  rewrite Hw. simpl. apply Z.ltb_lt in Hlt. rewrite Hlt.
  rewrite Hread. by rewrite to_size_t_nonneg.
Qed.

(** Where [POLLIN] is bit 0, the test of the accept loop,
    [!revents & POLLIN], passes over a slot exactly when the slot reports
    no event at all. *)
Lemma accept_test_skips_iff_idle (r : Z) :
  POLLIN cfg = 1%Z →
  Z.land (c_not r) (POLLIN cfg) ≠ 0%Z ↔ r = 0%Z.
Proof.
  intros ->. unfold c_not.
  destruct (r =? 0)%Z eqn:Hr.
  - apply Z.eqb_eq in Hr. by split.
  - apply Z.eqb_neq in Hr. by split.
Qed.

(** C7.  Slot-record pairing under reap.  Reaping the slot [client] of a
    table whose [fds_count] entries exist decrements the count and moves
    the entries above [client] one place down in [fds] and in [wsi]
    alike, so every index below the new count holds the pair it held, or
    the pair its upper neighbour held; and the service loop that reaps
    returns at once, however many slots were left to visit. *)
Theorem reap_shifts_pairs_together
    (this : libwebsocket_context) (client : nat) :
  client < fds_count this →
  fds_count this ≤ length (fds this) →
  fds_count this ≤ length (wsi this) →
  ∃ this',
    nuke_this this client = Some this' ∧
    fds_count this' = fds_count this - 1 ∧
    (∀ j, j < fds_count this' →
          (fds this' !! j, wsi this' !! j) =
          if decide (j < client)
          then (fds this !! j, wsi this !! j)
          else (fds this !! (j + 1), wsi this !! (j + 1))) ∧
    (∀ protocols heap k heap1 evs1,
        service_slot cfg env protocols this heap client
        = Some (SlotNuke, heap1, evs1) →
        poll_loop cfg env protocols (S k) client this heap
        = Some (this', heap1, evs1)).
Proof.
  intros Hc Hf Hw. unfold nuke_this.
  destruct (shift_down_spec (fds_count this - 1 - client) client
              {| fds := fds this; wsi := wsi this;
                 fds_count := fds_count this - 1;
                 count_protocols := count_protocols this;
                 ctx_use_ssl := ctx_use_ssl this |})
    as (this' & Hrun & Hcnt & _ & _ & _ & Hfs & Hws).
  { simpl. lia. }
  { simpl. lia. }
  simpl in *. exists this'. split; [done|]. split; [done|]. split.
  - intros j Hj. rewrite Hfs, Hws.
    destruct (decide (j < client)).
    + by rewrite !decide_False by lia.
    + by rewrite !decide_True by lia.
  - intros protocols heap k heap1 evs1 Hslot.
    cbn [poll_loop]. rewrite Hslot. simpl.
    unfold nuke_this. simpl. by rewrite Hrun.
Qed.

(** C4 (as amended).  The read of a client slot.  For a readable client
    slot with no error or hang-up, according to the count [n] the
    transport read returns: a negative [n] is logged and the slot is
    passed over, table and store untouched; [n = 0] tears the connection
    down and reaps the slot; a positive [n] hands the [n] bytes to the
    engine, whose negative result reaps the slot. *)
Theorem client_read_dispatch
    (protocols : list libwebsocket_protocols)
    (this : libwebsocket_context) (heap : gmap Z libwebsocket)
    (client k : nat) (pfd : pollfd) (w : Z)
    (ev : event) (n : Z) (buf : list Z) :
  fds this !! client = Some pfd →
  wsi this !! client = Some w →
  Z.land (revents pfd) (Z.lor (POLLERR cfg) (POLLHUP cfg)) = 0%Z →
  Z.land (revents pfd) (POLLIN cfg) ≠ 0%Z →
  (LWS_MAX_PROTOCOLS cfg ≤ w)%Z →
  transport_read env this heap w pfd = Some (ev, (n, buf)) →
  ((n < 0)%Z →
   poll_loop cfg env protocols (S k) client this heap
   = ('(this2, heap2, evs2) ←
        poll_loop cfg env protocols k (client + 1) this heap;
      Some (this2, heap2, [ev; EvLog "Socket read returned"] ++ evs2)))
  ∧
  (n = 0%Z →
   poll_loop cfg env protocols (S k) client this heap
   = ('(heap', evs) ←
        libwebsocket_close_and_free_session cfg env protocols heap w;
      this' ← nuke_this this client;
      Some (this', heap', ev :: evs)))
  ∧
  ((0 < n)%Z →
   ∃ heap' evs res,
     libwebsocket_read env heap w buf n = (heap', evs, res) ∧
     poll_loop cfg env protocols (S k) client this heap
     = if (0 <=? res)%Z
       then '(this2, heap2, evs2) ←
              poll_loop cfg env protocols k (client + 1) this heap';
            Some (this2, heap2, (ev :: EvFeed w n :: evs) ++ evs2)
       else this' ← nuke_this this client;
            Some (this', heap', ev :: EvFeed w n :: evs)).
Proof.
  intros Hfd Hw Herr Hin Hge Hread.
  cbn [poll_loop].
  unfold service_slot. rewrite Hfd. simpl. rewrite Herr. simpl.
  rewrite !c_not_is_one.
  apply Z.eqb_neq in Hin. rewrite Hin. simpl.
  rewrite Hw. simpl. apply Z.ltb_ge in Hge. rewrite Hge.
  rewrite Hread. simpl. rewrite !c_not_is_one.
  split; [|split].
  - intros Hn. apply Z.ltb_lt in Hn. by rewrite Hn.
  - intros ->. simpl.
    destruct (libwebsocket_close_and_free_session _ _ _ _ _)
      as [[heap' evs]|]; done.
  - intros Hn.
    assert ((n <? 0)%Z = false) as -> by (apply Z.ltb_ge; lia).
    assert ((n =? 0)%Z = false) as -> by (apply Z.eqb_neq; lia).
    destruct (libwebsocket_read env heap w buf n) as [[heap' evs] res].
    exists heap', evs, res. split; [done|].
    by destruct (0 <=? res)%Z.
Qed.

(** C6.  Table full.  An accept that yields a descriptor while the table
    already holds [MAX_CLIENTS] entries closes that descriptor and goes
    on: table and store are what they were, no record was allocated, and
    the only events are the accept, the log line and the close. *)
Theorem accept_on_full_table_closes
    (this : libwebsocket_context) (heap : gmap Z libwebsocket)
    (client : nat) (pfd : pollfd) :
  fds this !! client = Some pfd →
  Z.land (c_not (revents pfd)) (POLLIN cfg) = 0%Z →
  (0 ≤ sys_accept env (fd pfd))%Z →
  MAX_CLIENTS cfg ≤ fds_count this →
  accept_slot cfg env this heap client
  = Some (AcceptContinue, this, heap,
          [EvAccept (fd pfd); EvLog "too busy";
           EvClose (sys_accept env (fd pfd))])
  ∧ callbacks_of [EvAccept (fd pfd); EvLog "too busy";
                  EvClose (sys_accept env (fd pfd))] = [].
Proof.
  intros Hfd Hin Hacc Hfull. split; [|done].
  unfold accept_slot. rewrite Hfd. simpl. rewrite Hin. simpl.
  apply Z.ltb_ge in Hacc. rewrite Hacc.
  by rewrite (bool_decide_eq_true_2 _ Hfull).
Qed.

(** What the set-up loop has done when it reaches the [fork]: each
    protocol it went through got one new slot whose [wsi] entry is
    [NULL], and was stamped with its position and with the server. *)
Lemma setup_protocols_spec (rest : list libwebsocket_protocols) :
  ∀ server this protocols this' protocols',
    rest = drop (count_protocols this) protocols →
    setup_protocols cfg env rest server this protocols
    = Some (SetupReady this' protocols') →
    count_protocols this ≤ count_protocols this' ∧
    fds_count this' + count_protocols this
    = fds_count this + count_protocols this' ∧
    (∀ j, j < fds_count this → wsi this' !! j = wsi this !! j) ∧
    (∀ j, fds_count this ≤ j < fds_count this' →
          wsi this' !! j = Some 0%Z) ∧
    (∀ i, i < count_protocols this → protocols' !! i = protocols !! i) ∧
    (∀ i, count_protocols this ≤ i < count_protocols this' →
          ∃ p, protocols' !! i = Some p ∧
               protocol_index p = Z.of_nat i ∧ owning_server p = server).
Proof.
  induction rest as [|p rest IH];
    intros server this protocols this' protocols' Hrest Hrun;
    simpl in Hrun; [done|].
  destruct (callback p =? 0)%Z.
  { simplify_eq. repeat split; try done; intros; lia. }
  destruct (sys_socket env (count_protocols this) <? 0)%Z; [done|].
  destruct (sys_bind env _ <? 0)%Z; [done|].
  destruct (sys_getsockname env _) as [res port].
  destruct (res <? 0)%Z; [done|].
  destruct (fds this !! fds_count this) as [old|]; [|done]. simpl in Hrun.
  unfold array_set in Hrun.
  destruct (decide (fds_count this < length (fds this))); [|done].
  simpl in Hrun.
  destruct (decide (fds_count this < length (wsi this))) as [Hlen|]; [|done].
  simpl in Hrun.
  assert (protocols !! count_protocols this = Some p) as Hp.
  { rewrite <- (Nat.add_0_r (count_protocols this)), <- lookup_drop.
    by rewrite <- Hrest. }
  apply IH in Hrun as (Hc & Hf & Hlow & Hnew & Hplow & Hpnew); simpl in *.
  2:{ rewrite Nat.add_1_r, drop_insert_lt by lia.
      rewrite (drop_S _ _ _ Hp) in Hrest. by simplify_eq. }
  repeat split; try lia.
  - intros j Hj. rewrite Hlow by lia. by rewrite list_lookup_insert_ne by lia.
  - intros j Hj. destruct (decide (j = fds_count this)) as [->|Hne].
    + rewrite Hlow by lia. by rewrite list_lookup_insert_eq.
    + apply Hnew. lia.
  - intros i Hi. rewrite Hplow by lia. by rewrite list_lookup_insert_ne by lia.
  - intros i Hi. destruct (decide (i = count_protocols this)) as [->|Hne].
    + rewrite Hplow by lia.
      rewrite list_lookup_insert_eq by (by apply lookup_lt_Some in Hp).
      eexists. by repeat split.
    + apply Hpnew. lia.
Qed.

(** C9 (as amended).  After set-up, with [N] protocols, the table has
    [N + 1] slots; each rendezvous listener slot [k] in [1 .. N] holds
    [NULL] in [wsi], and protocol [k - 1] carries the index [k - 1].  The
    sentinel [k - 1] is what the accept phase stores for a connection
    accepted on listener [k]: it goes into the slot appended at the end
    of the table. *)
Theorem setup_listeners_hold_null
    (server : Z) (fds0 : list pollfd) (wsi0 : list Z) (sockfd : Z)
    (protocols : list libwebsocket_protocols)
    (this' : libwebsocket_context)
    (protocols' : list libwebsocket_protocols) :
  create_server_table cfg env server fds0 wsi0 sockfd protocols
  = Some (SetupReady this' protocols') →
  fds_count this' = count_protocols this' + 1 ∧
  (∀ k, 1 ≤ k ≤ count_protocols this' →
        wsi this' !! k = Some 0%Z ∧
        ∃ p, protocols' !! (k - 1) = Some p ∧
             protocol_index p = (Z.of_nat k - 1)%Z) ∧
  (∀ this heap k exit this2 heap2 evs,
      1 ≤ k →
      accept_slot cfg env this heap k = Some (exit, this2, heap2, evs) →
      fds_count this2 = fds_count this + 1 →
      wsi this2 !! fds_count this = Some (Z.of_nat k - 1)%Z).
Proof.
  intros Hrun. unfold create_server_table in Hrun.
  destruct (fds0 !! 0) as [old|]; [|done]. simpl in Hrun.
  destruct (array_set fds0 0 _) as [fds1|]; [|done]. simpl in Hrun.
  apply setup_protocols_spec in Hrun
    as (_ & Hf & _ & Hnew & _ & Hpnew); [|done].
  simpl in *. split; [lia|]. split.
  - intros k Hk. split; [apply Hnew; lia|].
    destruct (Hpnew (k - 1)) as (p & Hp & Hi & _); [lia|].
    exists p. split; [done|]. rewrite Hi. lia.
  - intros this heap k exit this2 heap2 evs Hk Hacc Hcnt.
    unfold accept_slot in Hacc.
    destruct (fds this !! k) as [pfd|]; [|done]. simpl in Hacc.
    destruct (negb _); [simplify_eq; lia|].
    destruct (sys_accept env (fd pfd) <? 0)%Z; [simplify_eq; lia|].
    destruct (bool_decide (MAX_CLIENTS cfg ≤ fds_count this));
      [simplify_eq; lia|].
    rewrite bool_decide_eq_false_2 in Hacc by lia. simpl in Hacc.
    unfold array_set, fill_in_fds in Hacc.
    destruct (decide (fds_count this < length (wsi this))); [|done].
    simpl in Hacc. unfold array_set in Hacc.
    destruct (decide (fds_count this < length (fds this))); [|done].
    simpl in Hacc. simplify_eq. simpl.
    by rewrite list_lookup_insert_eq.
Qed.

End Properties.

(** ** The properties on the demo server *)

Lemma broadcast_targeting_witness :
  (cb_reason (demo_broadcast_call [120%Z] 1) = LWS_CALLBACK_BROADCAST ∧
   cb_state (demo_broadcast_call [120%Z] 1) = WSI_STATE_ESTABLISHED ∧
   ∃ r, demo_heap !! 4096%Z = Some r ∧
        state r = WSI_STATE_ESTABLISHED ∧ protocol r = 0)
  ∧
  (cb_reason (demo_broadcast_call [104; 105]%Z 2) = LWS_CALLBACK_BROADCAST ∧
   cb_state (demo_broadcast_call [104; 105]%Z 2) = WSI_STATE_ESTABLISHED ∧
   ∃ r p, demo_heap !! 4096%Z = Some r ∧
          state r = WSI_STATE_ESTABLISHED ∧
          demo_protocols !! protocol r = Some p ∧
          protocol_index p = 0%Z).
Proof.
  split.
  - apply (proj1 (broadcast_targeting demo_cfg demo_env demo_protocols
                    demo_servers demo_this demo_heap
                    (demo_broadcast_call [120%Z] 1))
             0 [120%Z] 1%Z 0%Z
             [EvCallback (demo_broadcast_call [120%Z] 1)]).
    + vm_compute. reflexivity.
    + simpl. left.
  - apply (proj2 (broadcast_targeting demo_cfg demo_env demo_protocols
                    demo_servers demo_this demo_heap
                    (demo_broadcast_call [104; 105]%Z 2))
             3 0%Z SlotContinue demo_heap
             [EvRead 6; EvCallback (demo_broadcast_call [104; 105]%Z 2)]).
    + reflexivity.
    + reflexivity.
    + vm_compute. reflexivity.
    + simpl. left.
Defined.

Lemma closed_fires_iff_established_witness :
  ∃ heap' evs,
    libwebsocket_close_and_free_session demo_cfg demo_env demo_protocols
      demo_heap 4096
    = Some (heap', evs) ∧
    (length (filter (λ c, cb_reason c = LWS_CALLBACK_CLOSED)
                    (callbacks_of evs)) = 1
     ↔ state (demo_record 7 WSI_STATE_ESTABLISHED 0 4200)
       = WSI_STATE_ESTABLISHED ∧ 700%Z ≠ 0%Z) ∧
    (state (demo_record 7 WSI_STATE_ESTABLISHED 0 4200)
     ≠ WSI_STATE_ESTABLISHED → callbacks_of evs = []) ∧
    callbacks_of evs =
      if decide (state (demo_record 7 WSI_STATE_ESTABLISHED 0 4200)
                 = WSI_STATE_ESTABLISHED ∧ 700%Z ≠ 0%Z)
      then [ demo_closed_call ]
      else [].
Proof.
  apply (closed_fires_iff_established demo_cfg demo_env demo_protocols
           demo_heap 4096 (demo_record 7 WSI_STATE_ESTABLISHED 0 4200)
           {| callback := 700; owning_server := 1000; protocol_index := 0;
              broadcast_socket_port := 40004;
              broadcast_socket_user_fd := 0 |}).
  - vm_compute. discriminate.
  - vm_compute. reflexivity.
  - reflexivity.
Defined.

(** C2, refuted as stated.  A record that is ESTABLISHED but whose
    protocol pointer designates an entry without callback -- here the
    terminating entry of the demo table -- is torn down without any
    CLOSED: the guard on [wsi->protocol->callback] keeps the call from
    being made. *)
Lemma established_without_callback_gets_no_closed :
  demo_heap_no_callback !! 4096%Z
  = Some (demo_record 7 WSI_STATE_ESTABLISHED 2 4200) ∧
  libwebsocket_close_and_free_session demo_cfg demo_env demo_protocols
    demo_heap_no_callback 4096
  = Some (delete 4096%Z demo_heap_no_callback,
          [EvShutdown 7; EvClose 7; EvFree 4200; EvFree 4096]) ∧
  length (filter (λ c, cb_reason c = LWS_CALLBACK_CLOSED)
                 (callbacks_of
                    [EvShutdown 7; EvClose 7; EvFree 4200; EvFree 4096]))
  ≠ 1.
Proof.
  split; [vm_compute; reflexivity|]. split; [vm_compute; reflexivity|].
  vm_compute. discriminate.
Qed.

(** C3.  A failed read of a rendezvous descriptor is not ignored.  On the
    demo server the [read] of the rendezvous slot 3 returns [-1]; stored
    in the [size_t] [len] this is [2^64 - 1], the test [len < 0] does not
    fire, and the fan-out delivers a BROADCAST of that length to the
    established client of protocol 0. *)
Theorem negative_broadcast_read_still_fans_out :
  fst (sys_read demo_env_failing 6) = (-1)%Z ∧
  service_slot demo_cfg demo_env_failing demo_protocols demo_this demo_heap 3
  = Some (SlotContinue, demo_heap,
          [EvRead 6;
           EvCallback (demo_broadcast_call [] 18446744073709551615)]).
Proof. split; [reflexivity|]. vm_compute. reflexivity. Qed.

(** C4, refuted as stated.  On the demo server the [recv] of client
    slot 4 returns [-1]: the slot is passed over, the record stays in the
    store, nothing is closed and no reap is asked for. *)
Lemma negative_read_keeps_connection :
  fst (sys_recv demo_env_failing 7) = (-1)%Z ∧
  service_slot demo_cfg demo_env_failing demo_protocols demo_this demo_heap 4
  = Some (SlotContinue, demo_heap, [EvRecv 7; EvLog "Socket read returned"]) ∧
  is_Some (demo_heap !! 4096%Z).
Proof.
  split; [reflexivity|]. split; [vm_compute; reflexivity|].
  vm_compute. eauto.
Qed.

Lemma client_read_dispatch_witness :
  poll_loop demo_cfg demo_env demo_protocols 3 4 demo_this demo_heap
  = ('(heap', evs) ←
       libwebsocket_close_and_free_session demo_cfg demo_env demo_protocols
         demo_heap 4096;
     this' ← nuke_this demo_this 4;
     Some (this', heap', EvRecv 7 :: evs)).
Proof.
  apply (proj1 (proj2 (client_read_dispatch demo_cfg demo_env demo_protocols
                         demo_this demo_heap 4 2 (demo_pollfd 7 1) 4096
                         (EvRecv 7) 0 []
                         eq_refl eq_refl eq_refl
                         ltac:(vm_compute; discriminate)
                         ltac:(vm_compute; discriminate)
                         eq_refl))).
  reflexivity.
Defined.

(** C5, refuted as stated.  On the demo server a second teardown of the
    established client [4096] does not return: there are no two
    successive teardowns of that record, with one CLOSED or otherwise. *)
Lemma double_teardown_faults :
  ¬ ∃ heap1 evs1 heap2 evs2,
      libwebsocket_close_and_free_session demo_cfg demo_env demo_protocols
        demo_heap 4096 = Some (heap1, evs1) ∧
      libwebsocket_close_and_free_session demo_cfg demo_env demo_protocols
        heap1 4096 = Some (heap2, evs2) ∧
      length (filter (λ c, cb_reason c = LWS_CALLBACK_CLOSED)
                     (callbacks_of (evs1 ++ evs2))) = 1.
Proof.
  intros (heap1 & evs1 & heap2 & evs2 & H1 & H2 & _).
  apply close_twice_faults in H1; [|vm_compute; discriminate].
  congruence.
Qed.

Lemma teardown_sentinel_noop_record_freed_witness :
  libwebsocket_close_and_free_session demo_cfg demo_env demo_protocols
    demo_heap 1 = Some (demo_heap, [])
  ∧
  (delete 4096%Z demo_heap = delete 4096%Z demo_heap ∧
   length (callbacks_of
             [EvCallback demo_closed_call; EvShutdown 7; EvClose 7;
              EvFree 4200; EvFree 4096]) ≤ 1 ∧
   (∀ c, c ∈ callbacks_of
               [EvCallback demo_closed_call; EvShutdown 7; EvClose 7;
                EvFree 4200; EvFree 4096] →
         cb_reason c = LWS_CALLBACK_CLOSED ∧
         cb_state c = WSI_STATE_DEAD_SOCKET ∧ cb_wsi c = 4096%Z) ∧
   libwebsocket_close_and_free_session demo_cfg demo_env demo_protocols
     (delete 4096%Z demo_heap) 4096 = None).
Proof.
  split.
  - apply (proj1 (teardown_sentinel_noop_record_freed demo_cfg demo_env
                    demo_protocols demo_heap 1)).
    reflexivity.
  - apply (proj2 (teardown_sentinel_noop_record_freed demo_cfg demo_env
                    demo_protocols demo_heap 4096)).
    + vm_compute. discriminate.
    + vm_compute. reflexivity.
Defined.

Lemma accept_on_full_table_closes_witness :
  accept_slot demo_cfg demo_env demo_this_full_accept demo_heap 0
  = Some (AcceptContinue, demo_this_full_accept, demo_heap,
          [EvAccept 3; EvLog "too busy"; EvClose 20])
  ∧ callbacks_of [EvAccept 3; EvLog "too busy"; EvClose 20] = [].
Proof.
  apply (accept_on_full_table_closes demo_cfg demo_env demo_this_full_accept
           demo_heap 0 (demo_pollfd 3 1)).
  - reflexivity.
  - reflexivity.
  - vm_compute. discriminate.
  - simpl. lia.
Defined.

Lemma reap_shifts_pairs_together_witness :
  ∃ this',
    nuke_this demo_this 4 = Some this' ∧
    fds_count this' = fds_count demo_this - 1 ∧
    (∀ j, j < fds_count this' →
          (fds this' !! j, wsi this' !! j) =
          if decide (j < 4)
          then (fds demo_this !! j, wsi demo_this !! j)
          else (fds demo_this !! (j + 1), wsi demo_this !! (j + 1))) ∧
    (∀ protocols heap k heap1 evs1,
        service_slot demo_cfg demo_env protocols demo_this heap 4
        = Some (SlotNuke, heap1, evs1) →
        poll_loop demo_cfg demo_env protocols (S k) 4 demo_this heap
        = Some (this', heap1, evs1)).
Proof.
  apply (reap_shifts_pairs_together demo_cfg demo_env demo_this 4).
  - simpl. lia.
  - simpl. lia.
  - simpl. lia.
Defined.

(** C8.  An accept without read-readiness.  On the demo server the
    rendezvous listener in slot 1 reports POLLHUP and not POLLIN; the
    test [!revents & POLLIN] does not skip it: [accept] is called on its
    descriptor and the descriptor it yields is appended to the table. *)
Theorem accept_attempted_without_pollin :
  Z.land (revents (demo_pollfd 4 16)) (POLLIN demo_cfg) = 0%Z ∧
  fds demo_this_hup !! 1 = Some (demo_pollfd 4 16) ∧
  ∃ this',
    accept_slot demo_cfg demo_env demo_this_hup demo_heap 1
    = Some (AcceptContinue, this', demo_heap, [EvAccept 4]) ∧
    fds_count this' = fds_count demo_this_hup + 1 ∧
    fds this' !! 3 = Some {| fd := 20; events := 1; revents := 0 |}.
Proof.
  split; [reflexivity|]. split; [reflexivity|].
  eexists. split; [vm_compute; reflexivity|]. split; reflexivity.
Qed.

(** C9, refuted as stated.  After set-up of the demo server, which has
    two protocols, slot 2 holds [NULL], not the protocol index [1]. *)
Lemma second_listener_slot_is_null :
  create_server_table demo_cfg demo_env 1000 demo_raw_fds demo_raw_wsi 3
    demo_user_protocols
  = Some (SetupReady demo_after_setup demo_protocols) ∧
  count_protocols demo_after_setup = 2 ∧
  wsi demo_after_setup !! 2 = Some 0%Z ∧
  wsi demo_after_setup !! 2 ≠ Some (2 - 1)%Z.
Proof.
  split; [vm_compute; reflexivity|]. split; [reflexivity|].
  split; [reflexivity|]. vm_compute. discriminate.
Qed.

Lemma setup_listeners_hold_null_witness :
  fds_count demo_after_setup = count_protocols demo_after_setup + 1 ∧
  (∀ k, 1 ≤ k ≤ count_protocols demo_after_setup →
        wsi demo_after_setup !! k = Some 0%Z ∧
        ∃ p, demo_protocols !! (k - 1) = Some p ∧
             protocol_index p = (Z.of_nat k - 1)%Z) ∧
  (∀ this heap k exit this2 heap2 evs,
      1 ≤ k →
      accept_slot demo_cfg demo_env this heap k
      = Some (exit, this2, heap2, evs) →
      fds_count this2 = fds_count this + 1 →
      wsi this2 !! fds_count this = Some (Z.of_nat k - 1)%Z).
Proof.
  apply (setup_listeners_hold_null demo_cfg demo_env 1000 demo_raw_fds
           demo_raw_wsi 3 demo_user_protocols demo_after_setup
           demo_protocols).
  vm_compute. reflexivity.
Defined.

Lemma broadcast_paths_agree_witness :
  libwebsockets_broadcast demo_cfg demo_env demo_protocols demo_servers
    demo_heap 0 [120%Z] 1
  = (evs ← broadcast_fanout demo_cfg demo_protocols demo_this demo_heap
             0 [120%Z] 1;
     Some (0%Z, evs)).
Proof.
  apply (broadcast_paths_agree demo_cfg demo_env demo_protocols demo_servers
           demo_this demo_heap 0
           {| callback := 700; owning_server := 1000; protocol_index := 0;
              broadcast_socket_port := 40004;
              broadcast_socket_user_fd := 0 |}
           [120%Z] 1).
  - reflexivity.
  - reflexivity.
  - vm_compute. reflexivity.
  - reflexivity.
  - intros n w r Hn Hw _ Hr _.
    assert (w = 0%Z ∨ w = 4096%Z ∨ w = 8192%Z ∨ w = 12288%Z) as Hcases.
    { vm_compute in Hn.
      repeat (apply elem_of_cons in Hn as [Heq|Hn];
              [subst n; vm_compute in Hw; injection Hw as Hw;
               subst w; tauto|]).
      by apply elem_of_nil in Hn. }
    destruct Hcases as [-> | [-> | [-> | ->]]];
      vm_compute in Hr; [discriminate|..];
      injection Hr as <-; eexists; split; reflexivity.
Defined.

(** ** Further properties of the service core *)

(** An iteration of a counted loop that ran to its end ran, and what it
    called is part of what the loop called. *)
Lemma for_each_member ns body evs n :
  for_each ns body = Some evs →
  n ∈ ns →
  ∃ ev, body n = Some ev ∧ ∀ c, c ∈ callbacks_of ev → c ∈ callbacks_of evs.
Proof.
  revert evs. induction ns as [|m ns IH]; intros evs Hrun Hn; simpl in Hrun.
  - by apply elem_of_nil in Hn.
  - destruct (body m) as [ev|] eqn:Hb; [|done]. simpl in Hrun.
    destruct (for_each ns body) as [evs'|] eqn:Hr; [|done]. simpl in Hrun.
    simplify_eq. apply elem_of_cons in Hn as [Heq|Hn].
    + subst m. exists ev. split; [done|]. intros c Hc.
      rewrite callbacks_of_app. apply elem_of_app. by left.
    + destruct (IH evs' eq_refl Hn) as (ev' & Hb' & Hsub).
      exists ev'. split; [done|]. intros c Hc.
      rewrite callbacks_of_app. apply elem_of_app. right. by apply Hsub.
Qed.

(** When each iteration of a counted loop calls at most the record its
    slot holds, the records called are, in order, among the records the
    slots hold. *)
Lemma for_each_calls_sublist (bound : Z) (slots : list Z) ns body evs :
  (∀ n ev, body n = Some ev →
           ∃ w, slots !! n = Some w ∧
                (callbacks_of ev = [] ∨
                 ((bound ≤ w)%Z ∧ map cb_wsi (callbacks_of ev) = [w]))) →
  for_each ns body = Some evs →
  map cb_wsi (callbacks_of evs)
  `sublist_of` filter (λ w, (bound ≤ w)%Z) (omap (λ n, slots !! n) ns).
Proof.
  intros Hbody. revert evs.
  induction ns as [|n ns IH]; intros evs Hrun; simpl in Hrun.
  - simplify_eq. constructor.
  - destruct (body n) as [ev|] eqn:Hb; [|done]. simpl in Hrun.
    destruct (for_each ns body) as [evs'|] eqn:Hr; [|done]. simpl in Hrun.
    simplify_eq. specialize (IH evs' eq_refl).
    destruct (Hbody n ev Hb) as (w & Hw & Hev).
    rewrite callbacks_of_app, map_app. cbn [omap list_omap]. rewrite Hw.
    rewrite filter_cons.
    destruct Hev as [->|[Hge ->]]; simpl.
    + case_decide; [by apply sublist_cons|done].
    + rewrite decide_True by done. by apply sublist_skip.
Qed.

Lemma inloop_slot_shape cfg protocols this heap proto buf len n ev :
  inloop_slot cfg protocols this heap proto buf len n = Some ev →
  ∃ w, wsi this !! n = Some w ∧
       (callbacks_of ev = [] ∨
        ((LWS_MAX_PROTOCOLS cfg ≤ w)%Z ∧ map cb_wsi (callbacks_of ev) = [w])).
Proof.
  unfold inloop_slot. intros Hrun.
  destruct (wsi this !! n) as [w|]; [|done]. simpl in Hrun.
  exists w. split; [done|].
  destruct (w <? LWS_MAX_PROTOCOLS cfg)%Z eqn:Hlt; [simplify_eq; by left|].
  apply Z.ltb_ge in Hlt.
  destruct (heap !! w) as [r|]; [|done]. simpl in Hrun.
  destruct (negb _); [simplify_eq; by left|].
  destruct (negb _); [simplify_eq; by left|].
  destruct (protocols !! protocol r) as [p|]; [|done]. simpl in Hrun.
  destruct (callback p =? 0)%Z; [done|]. simplify_eq. by right.
Qed.

Lemma fanout_slot_shape cfg protocols this heap sentinel buf len n ev :
  fanout_slot cfg protocols this heap sentinel buf len n = Some ev →
  ∃ w, wsi this !! n = Some w ∧
       (callbacks_of ev = [] ∨
        ((LWS_MAX_PROTOCOLS cfg ≤ w)%Z ∧ map cb_wsi (callbacks_of ev) = [w])).
Proof.
  unfold fanout_slot. intros Hrun.
  destruct (wsi this !! n) as [w|]; [|done]. simpl in Hrun.
  exists w. split; [done|].
  destruct (w <? LWS_MAX_PROTOCOLS cfg)%Z eqn:Hlt; [simplify_eq; by left|].
  apply Z.ltb_ge in Hlt.
  destruct (heap !! w) as [r|]; [|done]. simpl in Hrun.
  destruct (negb _); [simplify_eq; by left|].
  destruct (protocols !! protocol r) as [p|]; [|done]. simpl in Hrun.
  destruct (negb _); [simplify_eq; by left|].
  destruct (callback p =? 0)%Z; [done|]. simplify_eq. by right.
Qed.

Lemma free_tokens_null (n : nat) :
  free_tokens (replicate n {| token := 0; token_len := 0 |}) = [].
Proof. induction n as [|n IH]; [done|]. simpl. by rewrite IH. Qed.

(** Whenever the copy loop under [nuke_this] runs to its end, it has left
    the counts, the sizes of the arrays and every entry below its starting
    index as they were. *)
Lemma shift_down_inv (k : nat) :
  ∀ n this this',
    shift_down k n this = Some this' →
    fds_count this' = fds_count this ∧
    count_protocols this' = count_protocols this ∧
    length (fds this') = length (fds this) ∧
    length (wsi this') = length (wsi this) ∧
    ∀ j, j < n →
         fds this' !! j = fds this !! j ∧ wsi this' !! j = wsi this !! j.
Proof.
  induction k as [|k IH]; intros n this this' Hrun; simpl in Hrun.
  - by simplify_eq.
  - destruct (fds this !! (n + 1)) as [f|]; [|done]. simpl in Hrun.
    destruct (wsi this !! (n + 1)) as [w|]; [|done]. simpl in Hrun.
    unfold array_set in Hrun.
    destruct (decide (n < length (fds this))); [|done]. simpl in Hrun.
    destruct (decide (n < length (wsi this))); [|done]. simpl in Hrun.
    apply IH in Hrun as (Hc & Hp & Hlf & Hlw & Hlow). simpl in *.
    rewrite length_insert in Hlf. rewrite length_insert in Hlw.
    repeat split; try done.
    + rewrite (proj1 (Hlow j ltac:(lia))).
      by rewrite list_lookup_insert_ne by lia.
    + rewrite (proj2 (Hlow j ltac:(lia))).
      by rewrite list_lookup_insert_ne by lia.
Qed.

Lemma nuke_this_inv this client this' :
  nuke_this this client = Some this' →
  fds_count this' = fds_count this - 1 ∧
  count_protocols this' = count_protocols this ∧
  length (fds this') = length (fds this) ∧
  length (wsi this') = length (wsi this) ∧
  ∀ j, j < client →
       fds this' !! j = fds this !! j ∧ wsi this' !! j = wsi this !! j.
Proof. unfold nuke_this. intros Hrun. by apply shift_down_inv in Hrun. Qed.

(** A counted loop whose every iteration records the same events records
    them once per iteration. *)
Lemma for_each_const (evs : list event) (n : nat) :
  ∀ a, for_each (seq a n) (λ _, Some evs) = Some (concat (replicate n evs)).
Proof.
  induction n as [|n IH]; intros a; [done|].
  cbn [seq for_each]. simpl. by rewrite IH.
Qed.

(** Reading the table through [apply_poll]: the descriptors stay, the
    [revents] of the active entries are those reported. *)
Lemma apply_poll_lookup this pr j :
  fds (apply_poll this pr) !! j
  = (λ p, if bool_decide (j < fds_count this)
          then {| fd := fd p; events := events p;
                  revents := poll_revents pr j |}
          else p) <$> fds this !! j.
Proof. unfold apply_poll. simpl. by rewrite list_lookup_imap. Qed.

Lemma apply_poll_fd this pr j :
  fd <$> fds (apply_poll this pr) !! j = fd <$> fds this !! j.
Proof.
  rewrite apply_poll_lookup. destruct (fds this !! j) as [p|]; [|done].
  simpl. by destruct (bool_decide (j < fds_count this)).
Qed.

Section ServerProperties.

Variable cfg : lws_config.
Variable env : environment.

(** X1.  A broadcast reaches every member, the caller included.  When the
    in-loop path of [libwebsockets_broadcast] is taken for the protocol
    that [libwebsockets_get_protocol] reports for an established record
    held by a client slot, and the broadcast returns, it returns 0 and
    that record's callback has been called with reason BROADCAST, the
    record's own [user_space], and the buffer and length of the caller. *)
Theorem broadcast_reaches_own_protocol
    (protocols : list libwebsocket_protocols)
    (servers : gmap Z libwebsocket_context)
    (this : libwebsocket_context) (heap : gmap Z libwebsocket)
    (proto : nat) (P : libwebsocket_protocols)
    (buf : list Z) (len res : Z) (evs : list event)
    (n : nat) (w : Z) (r : libwebsocket) :
  protocols !! proto = Some P →
  broadcast_socket_user_fd P = 0%Z →
  servers !! owning_server P = Some this →
  n ∈ client_slots this →
  wsi this !! n = Some w →
  (LWS_MAX_PROTOCOLS cfg ≤ w)%Z →
  heap !! w = Some r →
  state r = WSI_STATE_ESTABLISHED →
  libwebsockets_get_protocol heap w = Some proto →
  libwebsockets_broadcast cfg env protocols servers heap proto buf len
  = Some (res, evs) →
  res = 0%Z ∧
  callback P ≠ 0%Z ∧
  {| cb_fn := callback P; cb_wsi := w;
     cb_state := WSI_STATE_ESTABLISHED;
     cb_reason := LWS_CALLBACK_BROADCAST; cb_user := user_space r;
     cb_in := Some buf; cb_len := len |} ∈ callbacks_of evs.
Proof.
  intros HP Hfd Hsrv Hn Hw Hge Hr Hst Hget Hrun.
  unfold libwebsockets_get_protocol in Hget. rewrite Hr in Hget.
  simpl in Hget. injection Hget as Hproto.
  unfold libwebsockets_broadcast in Hrun.
  rewrite HP in Hrun. simpl in Hrun. rewrite Hfd in Hrun. simpl in Hrun.
  rewrite Hsrv in Hrun. simpl in Hrun.
  destruct (for_each _ _) as [evs'|] eqn:Hloop; [|done]. simpl in Hrun.
  simplify_eq.
  destruct (for_each_member _ _ _ _ Hloop Hn) as (ev & Hb & Hsub).
  unfold inloop_slot in Hb. rewrite Hw in Hb. simpl in Hb.
  apply Z.ltb_ge in Hge. rewrite Hge, Hr in Hb. simpl in Hb.
  rewrite Hst in Hb.
  rewrite !bool_decide_eq_true_2 in Hb by done. simpl in Hb.
  rewrite HP in Hb. simpl in Hb.
  destruct (callback P =? 0)%Z eqn:Hcb; [done|].
  apply Z.eqb_neq in Hcb. simplify_eq.
  split; [done|]. split; [done|].
  apply Hsub. simpl. left.
Qed.

(** X2.  No record is called twice.  When the record addresses held by
    the client slots are pairwise distinct, one broadcast -- in-loop or
    rendezvous fan-out -- calls each record at most once. *)
Theorem broadcast_calls_each_record_once
    (protocols : list libwebsocket_protocols)
    (servers : gmap Z libwebsocket_context)
    (this : libwebsocket_context) (heap : gmap Z libwebsocket)
    (buf : list Z) (len : Z) :
  NoDup (filter (λ w, (LWS_MAX_PROTOCOLS cfg ≤ w)%Z)
                (omap (λ n, wsi this !! n) (client_slots this))) →
  (∀ proto P res evs,
      protocols !! proto = Some P →
      servers !! owning_server P = Some this →
      libwebsockets_broadcast cfg env protocols servers heap proto buf len
      = Some (res, evs) →
      NoDup (map cb_wsi (callbacks_of evs)))
  ∧
  (∀ sentinel evs,
      broadcast_fanout cfg protocols this heap sentinel buf len = Some evs →
      NoDup (map cb_wsi (callbacks_of evs))).
Proof.
  intros Hnodup. split.
  - intros proto P res evs HP Hsrv Hrun.
    unfold libwebsockets_broadcast in Hrun.
    rewrite HP in Hrun. simpl in Hrun.
    destruct (broadcast_socket_user_fd P =? 0)%Z.
    2:{ simplify_eq. constructor. }
    rewrite Hsrv in Hrun. simpl in Hrun.
    destruct (for_each _ _) as [evs'|] eqn:Hloop; [|done]. simpl in Hrun.
    simplify_eq.
    eapply sublist_NoDup; [exact Hnodup|].
    eapply for_each_calls_sublist; [|exact Hloop].
    intros n ev. apply inloop_slot_shape.
  - intros sentinel evs Hrun.
    eapply sublist_NoDup; [exact Hnodup|].
    eapply for_each_calls_sublist; [|exact Hrun].
    intros n ev. apply fanout_slot_shape.
Qed.

(** X3.  A broadcast with no client in the table is silent.  When the
    table holds nothing above the rendezvous listeners -- as in the
    parent process, whose copy of the table stays as the set-up left it
    -- the in-loop path of [libwebsockets_broadcast] returns 0 without
    calling anything and without sending anything. *)
Theorem broadcast_without_clients_is_silent
    (protocols : list libwebsocket_protocols)
    (servers : gmap Z libwebsocket_context)
    (this : libwebsocket_context) (heap : gmap Z libwebsocket)
    (proto : nat) (P : libwebsocket_protocols)
    (buf : list Z) (len : Z) :
  protocols !! proto = Some P →
  broadcast_socket_user_fd P = 0%Z →
  servers !! owning_server P = Some this →
  fds_count this ≤ count_protocols this + 1 →
  libwebsockets_broadcast cfg env protocols servers heap proto buf len
  = Some (0%Z, []).
Proof.
  intros HP Hfd Hsrv Hcount. unfold libwebsockets_broadcast.
  rewrite HP. simpl. rewrite Hfd. simpl. rewrite Hsrv. simpl.
  unfold client_slots.
  by replace (fds_count this - (count_protocols this + 1)) with 0 by lia.
Qed.


(** What the service loop leaves alone, from any slot on. *)
Lemma poll_loop_inv protocols (k : nat) :
  ∀ client this heap this' heap' evs,
    count_protocols this < client →
    client + k ≤ fds_count this →
    poll_loop cfg env protocols k client this heap
    = Some (this', heap', evs) →
    count_protocols this' = count_protocols this ∧
    count_protocols this' < fds_count this' ∧
    (fds_count this' = fds_count this ∨
     fds_count this' + 1 = fds_count this) ∧
    length (fds this') = length (fds this) ∧
    length (wsi this') = length (wsi this) ∧
    ∀ j, j < client →
         fds this' !! j = fds this !! j ∧ wsi this' !! j = wsi this !! j.
Proof.
  induction k as [|k IH]; intros client this heap this' heap' evs Hc Hk Hrun;
    simpl in Hrun.
  - simplify_eq. repeat split; try done; try lia; by left.
  - destruct (service_slot cfg env protocols this heap client)
      as [[[exit heap1] evs1]|]; [|done]. simpl in Hrun.
    destruct exit.
    + destruct (poll_loop cfg env protocols k (client + 1) this heap1)
        as [[[this2 heap2] evs2]|] eqn:Hrest; [|done]. simpl in Hrun.
      simplify_eq.
      apply IH in Hrest as (Hp & Hlt & Hcnt & Hlf & Hlw & Hlow); [|lia..].
      repeat split; try done; apply Hlow; lia.
    + destruct (nuke_this this client) as [this2|] eqn:Hnuke; [|done].
      simpl in Hrun. simplify_eq.
      apply nuke_this_inv in Hnuke as (Hcnt & Hp & Hlf & Hlw & Hlow).
      repeat split; try done; try lia; try (apply Hlow; lia).
Qed.

(** X5.  The service phase keeps the listeners.  Whenever
    [libwebsocket_poll_connections] returns, on a table that has its
    listeners, it has removed at most one entry, the listeners are still
    all there, and the listener and every rendezvous listener slot hold
    what they held. *)
Theorem service_phase_keeps_listeners
    (protocols : list libwebsocket_protocols)
    (this this' : libwebsocket_context)
    (heap heap' : gmap Z libwebsocket) (evs : list event) :
  count_protocols this < fds_count this →
  libwebsocket_poll_connections cfg env protocols this heap
  = Some (this', heap', evs) →
  count_protocols this' = count_protocols this ∧
  count_protocols this' < fds_count this' ∧
  (fds_count this' = fds_count this ∨ fds_count this' + 1 = fds_count this) ∧
  length (fds this') = length (fds this) ∧
  length (wsi this') = length (wsi this) ∧
  ∀ j, j ≤ count_protocols this →
       fds this' !! j = fds this !! j ∧ wsi this' !! j = wsi this !! j.
Proof.
  intros Hc Hrun. unfold libwebsocket_poll_connections in Hrun.
  apply poll_loop_inv in Hrun as (Hp & Hlt & Hcnt & Hlf & Hlw & Hlow);
    [|lia..].
  repeat split; try done; apply Hlow; lia.
Qed.

(** Closes the facts about counts, sizes and untouched entries that remain
    once a branch of the accept loop has been run. *)
Ltac table_facts :=
  repeat split; intros; simpl;
  try done; try lia;
  try (by rewrite list_lookup_insert_ne by lia).

(** What one turn of the accept loop does to the table, whatever the
    operating system answers. *)
Lemma accept_slot_spec this heap client :
  client < length (fds this) →
  MAX_CLIENTS cfg ≤ length (fds this) →
  MAX_CLIENTS cfg ≤ length (wsi this) →
  ∃ exit this' heap' evs,
    accept_slot cfg env this heap client = Some (exit, this', heap', evs) ∧
    count_protocols this' = count_protocols this ∧
    length (fds this') = length (fds this) ∧
    length (wsi this') = length (wsi this) ∧
    fds_count this ≤ fds_count this' ∧
    (fds_count this ≤ MAX_CLIENTS cfg → fds_count this' ≤ MAX_CLIENTS cfg) ∧
    (∀ j, j < fds_count this →
          fds this' !! j = fds this !! j ∧ wsi this' !! j = wsi this !! j) ∧
    callbacks_of evs = [].
Proof.
  intros Hc Hlf Hlw. unfold accept_slot.
  destruct (lookup_lt_is_Some_2 (fds this) client Hc) as [pfd Hpfd].
  rewrite Hpfd. simpl.
  destruct (negb _).
  { eexists _, _, _, _. split; [done|]. table_facts. }
  destruct (sys_accept env (fd pfd) <? 0)%Z.
  { eexists _, _, _, _. split; [done|]. table_facts. }
  destruct (bool_decide (MAX_CLIENTS cfg ≤ fds_count this)) eqn:Hfull.
  { eexists _, _, _, _. split; [done|]. table_facts. }
  apply bool_decide_eq_false in Hfull.
  unfold fill_in_fds, array_set. simpl.
  repeat (rewrite decide_True by (simpl; lia); simpl).
  destruct (negb (bool_decide (client = 0))).
  { eexists _, _, _, _. split; [done|]. simpl.
    rewrite !length_insert. table_facts. }
  destruct (sys_malloc env heap =? 0)%Z.
  { eexists _, _, _, _. split; [done|]. simpl. rewrite length_insert.
    table_facts. }
  destruct (ctx_use_ssl this && _).
  { eexists _, _, _, _. split; [done|]. simpl. rewrite length_insert.
    table_facts. }
  destruct (ctx_use_ssl this && _).
  { eexists _, _, _, _. split; [done|]. simpl. rewrite length_insert.
    table_facts. }
  eexists _, _, _, _. split; [done|]. simpl. rewrite !length_insert.
  table_facts.
Qed.

Lemma accept_loop_spec (clients : list nat) :
  ∀ this heap,
    Forall (λ c, c < length (fds this)) clients →
    MAX_CLIENTS cfg ≤ length (fds this) →
    MAX_CLIENTS cfg ≤ length (wsi this) →
    ∃ exit this' heap' evs,
      accept_loop cfg env clients this heap = Some (exit, this', heap', evs) ∧
      count_protocols this' = count_protocols this ∧
      length (fds this') = length (fds this) ∧
      length (wsi this') = length (wsi this) ∧
      fds_count this ≤ fds_count this' ∧
      (fds_count this ≤ MAX_CLIENTS cfg →
       fds_count this' ≤ MAX_CLIENTS cfg) ∧
      (∀ j, j < fds_count this →
            fds this' !! j = fds this !! j ∧ wsi this' !! j = wsi this !! j) ∧
      callbacks_of evs = [].
Proof.
  induction clients as [|client rest IH]; intros this heap Hall Hlf Hlw.
  - eexists _, _, _, _. split; [done|]. by repeat split.
  - apply Forall_cons in Hall as [Hc Hrest]. simpl.
    destruct (accept_slot_spec this heap client Hc Hlf Hlw)
      as (exit & this1 & heap1 & evs1
          & -> & Hp1 & Hlf1 & Hlw1 & Hge1 & Hmax1 & Hlow1 & Hcb1).
    simpl. destruct exit.
    2:{ eexists _, _, _, _. split; [done|]. do 6 (split; [done|]). done. }
    destruct (IH this1 heap1)
      as (exit2 & this2 & heap2 & evs2
          & -> & Hp2 & Hlf2 & Hlw2 & Hge2 & Hmax2 & Hlow2 & Hcb2);
      [by rewrite Hlf1|lia..|].
    simpl. eexists _, _, _, _. split; [done|].
    rewrite callbacks_of_app, Hcb1, Hcb2.
    do 4 (split; [lia|]). split; [auto|]. split; [|done].
    intros j Hj.
    rewrite (proj1 (Hlow2 j ltac:(lia))), (proj2 (Hlow2 j ltac:(lia))).
    by apply Hlow1.
Qed.

(** The only way out of the accept loop before its end is the
    [return -1] after a [malloc] that returned [NULL]. *)
Lemma accept_slot_exit this heap client exit this' heap' evs :
  accept_slot cfg env this heap client = Some (exit, this', heap', evs) →
  exit = AcceptContinue ∨
  (exit = AcceptReturn (-1) ∧ sys_malloc env heap = 0%Z).
Proof.
  unfold accept_slot. intros Hrun.
  destruct (fds this !! client) as [pfd|]; [|done]. simpl in Hrun.
  destruct (negb _); [simplify_eq; by left|].
  destruct (sys_accept env (fd pfd) <? 0)%Z; [simplify_eq; by left|].
  destruct (bool_decide (MAX_CLIENTS cfg ≤ fds_count this));
    [simplify_eq; by left|].
  destruct (negb (bool_decide (client = 0))).
  { destruct (array_set (wsi this) _ _); [|done]. simpl in Hrun.
    destruct (fill_in_fds _ _ _ _); [|done]. simpl in Hrun.
    simplify_eq. by left. }
  destruct (array_set (wsi this) _ _) as [wsi'|]; [|done]. simpl in Hrun.
  destruct (sys_malloc env heap =? 0)%Z eqn:Hnull.
  { apply Z.eqb_eq in Hnull. simplify_eq. by right. }
  destruct (ctx_use_ssl this && _); [simplify_eq; by left|].
  destruct (ctx_use_ssl this && _); [simplify_eq; by left|].
  destruct (fill_in_fds _ _ _ _); [|done]. simpl in Hrun.
  simplify_eq. by left.
Qed.

Lemma accept_loop_exit (clients : list nat) :
  ∀ this heap exit this' heap' evs,
    accept_loop cfg env clients this heap = Some (exit, this', heap', evs) →
    exit = AcceptContinue ∨
    (exit = AcceptReturn (-1) ∧ ∃ h, sys_malloc env h = 0%Z).
Proof.
  induction clients as [|client rest IH];
    intros this heap exit this' heap' evs Hrun; simpl in Hrun.
  - simplify_eq. by left.
  - destruct (accept_slot cfg env this heap client)
      as [[[[exit1 this1] heap1] evs1]|] eqn:Hslot; [|done].
    simpl in Hrun.
    apply accept_slot_exit in Hslot as [->|[-> Hnull]].
    + destruct (accept_loop cfg env rest this1 heap1)
        as [[[[exit2 this2] heap2] evs2]|] eqn:Hrest; [|done].
      simpl in Hrun. simplify_eq. by eapply IH.
    + simplify_eq. right. split; [done|]. by exists heap.
Qed.

(** X6.  The accept phase stays in the table.  On a table laid out as the
    source describes, the accept phase always returns, without reading
    or writing outside the arrays: either at the end of its loop, or by
    the [return -1] that follows a [malloc] returning [NULL] -- so it
    runs to its end whenever [malloc] never returns [NULL].  Either way
    it leaves the layout intact (in particular the count never exceeds
    [MAX_CLIENTS]), keeps every entry the table held, and calls no
    callback. *)
Theorem accept_phase_stays_in_table
    (this : libwebsocket_context) (heap : gmap Z libwebsocket) :
  table_layout cfg this →
  ∃ exit this' heap' evs,
    accept_phase cfg env this heap = Some (exit, this', heap', evs) ∧
    (exit = AcceptContinue ∨
     (exit = AcceptReturn (-1) ∧ ∃ h, sys_malloc env h = 0%Z)) ∧
    ((∀ h, sys_malloc env h ≠ 0%Z) → exit = AcceptContinue) ∧
    table_layout cfg this' ∧
    count_protocols this' = count_protocols this ∧
    fds_count this ≤ fds_count this' ∧
    (∀ j, j < fds_count this →
          fds this' !! j = fds this !! j ∧ wsi this' !! j = wsi this !! j) ∧
    callbacks_of evs = [].
Proof.
  intros (Hc & Hmax & Hlf & Hlw). unfold accept_phase.
  destruct (accept_loop_spec (seq 0 (count_protocols this + 1)) this heap)
    as (exit & this' & heap' & evs
        & Hrun & Hp & Hlf' & Hlw' & Hge & Hmax' & Hlow & Hcb);
    [|done..|].
  { apply Forall_forall. intros c Hin. apply elem_of_seq in Hin. lia. }
  exists exit, this', heap', evs. split; [done|].
  pose proof (accept_loop_exit _ _ _ _ _ _ _ Hrun) as Hexit.
  split; [exact Hexit|]. split.
  { intros Hmem. destruct Hexit as [->|[_ [h Hh]]]; [done|].
    by destruct (Hmem h). }
  unfold table_layout. rewrite Hp, Hlf', Hlw'.
  repeat split; try done; try lia; try apply Hlow; auto.
Qed.

(** X7.  A connection dropped before the handshake leaves no trace.  A
    plain (non-TLS) accept on the listener, with room in the table and a
    fresh record from [malloc], appends the new descriptor paired with
    the record, which is in state HTTP, bound to the head of the protocol
    table, without [user_space] and at revision 76, and calls nothing.
    Tearing that record down then calls nothing either, shuts down and
    closes the descriptor, frees the record and gives back the store as
    it was before the accept. *)
Theorem accept_then_teardown_restores_store
    (protocols : list libwebsocket_protocols)
    (this : libwebsocket_context) (heap : gmap Z libwebsocket)
    (pfd : pollfd) (p : Z) :
  fds this !! 0 = Some pfd →
  Z.land (c_not (revents pfd)) (POLLIN cfg) = 0%Z →
  (0 ≤ sys_accept env (fd pfd))%Z →
  fds_count this < MAX_CLIENTS cfg →
  fds_count this < length (fds this) →
  fds_count this < length (wsi this) →
  ctx_use_ssl this = false →
  use_ssl cfg = false →
  sys_malloc env heap = p →
  p ≠ 0%Z →
  (LWS_MAX_PROTOCOLS cfg ≤ p)%Z →
  heap !! p = None →
  is_Some (protocols !! 0) →
  ∃ this' heap' r,
    accept_slot cfg env this heap 0
    = Some (AcceptContinue, this', heap', [EvAccept (fd pfd)]) ∧
    fds_count this' = fds_count this + 1 ∧
    wsi this' !! fds_count this = Some p ∧
    fds this' !! fds_count this
    = Some {| fd := sys_accept env (fd pfd); events := POLLIN cfg;
              revents := 0 |} ∧
    heap' !! p = Some r ∧
    state r = WSI_STATE_HTTP ∧ protocol r = 0 ∧ user_space r = 0%Z ∧
    ietf_spec_revision r = 76%Z ∧
    libwebsocket_close_and_free_session cfg env protocols heap' p
    = Some (heap, [EvShutdown (sys_accept env (fd pfd));
                   EvClose (sys_accept env (fd pfd)); EvFree p]).
Proof.
  intros Hfd Htest Hacc Hroom Hlf Hlw Hssl Hgssl Hp Hnz Hge Hfresh [P HP].
  unfold accept_slot. rewrite Hfd. simpl. rewrite Htest. simpl.
  apply Z.ltb_ge in Hacc. rewrite Hacc.
  rewrite bool_decide_eq_false_2 by lia. simpl.
  unfold fill_in_fds, array_set. simpl.
  repeat (rewrite decide_True by (simpl; lia); simpl).
  rewrite Hp. apply Z.eqb_neq in Hnz. rewrite Hnz, Hssl. simpl.
  eexists _, _, _. split; [done|]. simpl.
  split; [done|]. split; [by rewrite list_lookup_insert_eq|].
  split; [by rewrite list_lookup_insert_eq|].
  rewrite lookup_insert_eq. split; [done|]. simpl.
  do 4 (split; [done|]).
  unfold libwebsocket_close_and_free_session.
  apply Z.ltb_ge in Hge. rewrite Hge, lookup_insert_eq. simpl.
  rewrite HP. simpl. rewrite Hgssl, free_tokens_null. simpl.
  rewrite delete_insert_id by done. rewrite andb_false_r. done.
Qed.

(** X8.  A failed TLS negotiation publishes nothing.  With TLS on, when
    [SSL_new] yields no session or [SSL_accept] does not return 1, the
    accept on the listener goes on to the next slot: the count and the
    active entries of the table and the store are what they were, the
    record just allocated is freed, no callback is called -- and the
    accepted descriptor is not closed. *)
Theorem ssl_failure_publishes_nothing
    (this : libwebsocket_context) (heap : gmap Z libwebsocket)
    (pfd : pollfd) :
  fds this !! 0 = Some pfd →
  Z.land (c_not (revents pfd)) (POLLIN cfg) = 0%Z →
  (0 ≤ sys_accept env (fd pfd))%Z →
  fds_count this < MAX_CLIENTS cfg →
  fds_count this < length (wsi this) →
  ctx_use_ssl this = true →
  sys_malloc env heap ≠ 0%Z →
  (SSL_new env (sys_accept env (fd pfd)) = 0%Z ∨
   SSL_accept env (SSL_new env (sys_accept env (fd pfd))) ≠ 1%Z) →
  ∃ this' evs,
    accept_slot cfg env this heap 0
    = Some (AcceptContinue, this', heap, evs) ∧
    fds_count this' = fds_count this ∧
    fds this' = fds this ∧
    (∀ j, j < fds_count this → wsi this' !! j = wsi this !! j) ∧
    callbacks_of evs = [] ∧
    EvFree (sys_malloc env heap) ∈ evs ∧
    EvClose (sys_accept env (fd pfd)) ∉ evs.
Proof.
  intros Hfd Htest Hacc Hroom Hlw Hssl Hnz Hfail.
  unfold accept_slot. rewrite Hfd. simpl. rewrite Htest. simpl.
  apply Z.ltb_ge in Hacc. rewrite Hacc.
  rewrite bool_decide_eq_false_2 by lia. simpl.
  unfold array_set. rewrite decide_True by lia. simpl.
  apply Z.eqb_neq in Hnz. rewrite Hnz, Hssl. simpl.
  destruct (SSL_new env (sys_accept env (fd pfd)) =? 0)%Z eqn:Hnew.
  - eexists _, _. split; [done|]. simpl.
    do 2 (split; [done|]).
    split; [intros j Hj; by rewrite list_lookup_insert_ne by lia|].
    split; [done|]. split.
    + do 2 right. left.
    + intros Hin. repeat (apply elem_of_cons in Hin as [Hin|Hin]; [done|]).
      by apply elem_of_nil in Hin.
  - destruct Hfail as [Hz|Hne]; [apply Z.eqb_neq in Hnew; done|].
    apply Z.eqb_neq in Hne. rewrite Hne. simpl.
    eexists _, _. split; [done|]. simpl.
    do 2 (split; [done|]).
    split; [intros j Hj; by rewrite list_lookup_insert_ne by lia|].
    split; [done|]. split.
    + do 2 right. left.
    + intros Hin. repeat (apply elem_of_cons in Hin as [Hin|Hin]; [done|]).
      by apply elem_of_nil in Hin.
Qed.

(** X9.  A dead listener ends the loop without a goodbye.  When [poll]
    fails, or reports an error or a hang-up on the listener, the turn
    jumps to [fatal]: nothing is accepted or serviced, the store is
    untouched, no callback is called -- established clients get no
    CLOSED -- and the clean-up closes the descriptor of slot 0 once for
    each entry of the table, and no other descriptor. *)
Theorem dead_listener_closes_only_listener
    (protocols : list libwebsocket_protocols)
    (this : libwebsocket_context) (heap : gmap Z libwebsocket)
    (pr : poll_result) (pfd : pollfd) :
  fds this !! 0 = Some pfd →
  0 < fds_count this →
  ((poll_return pr < 0)%Z ∨
   Z.land (poll_revents pr 0) (Z.lor (POLLERR cfg) (POLLHUP cfg)) ≠ 0%Z) →
  service_iteration cfg env protocols this heap pr
  = Some (IterFatal, apply_poll this pr, heap,
          EvLog "Listen Socket dead"
            :: replicate (fds_count this) (EvClose (fd pfd)))
  ∧ callbacks_of (EvLog "Listen Socket dead"
                    :: replicate (fds_count this) (EvClose (fd pfd))) = [].
Proof.
  intros Hfd Hcnt Hdead.
  assert (fds (apply_poll this pr) !! 0
          = Some {| fd := fd pfd; events := events pfd;
                    revents := poll_revents pr 0 |}) as H0.
  { rewrite apply_poll_lookup, Hfd. simpl.
    by rewrite bool_decide_eq_true_2 by done. }
  assert (fatal_cleanup (apply_poll this pr)
          = Some (replicate (fds_count this) (EvClose (fd pfd)))) as Hclean.
  { unfold fatal_cleanup. rewrite H0. simpl.
    rewrite for_each_const. f_equal.
    generalize (fds_count this). intros n.
    induction n as [|n IH]; [done|]. simpl. by rewrite IH. }
  split.
  - unfold service_iteration. cbv zeta. rewrite H0, Hclean.
    destruct (poll_return pr <? 0)%Z eqn:Hn; [done|].
    destruct Hdead as [Hneg|Hbits]; [apply Z.ltb_ge in Hn; lia|].
    apply Z.eqb_neq in Hbits. cbn [revents mbind option_bind].
    by rewrite Hbits.
  - change (EvLog "Listen Socket dead" :: ?l)
      with ([EvLog "Listen Socket dead"] ++ l).
    rewrite callbacks_of_app. simpl.
    generalize (fds_count this). intros n.
    induction n as [|n IH]; [done|]. simpl. exact IH.
Qed.

Lemma apply_poll_layout this pr :
  table_layout cfg this → table_layout cfg (apply_poll this pr).
Proof.
  unfold table_layout, apply_poll. simpl. by rewrite length_imap.
Qed.

(** One turn of the server loop keeps the layout of the table and the
    listeners. *)
Lemma service_iteration_inv protocols this heap pr exit this' heap' evs :
  table_layout cfg this →
  service_iteration cfg env protocols this heap pr
  = Some (exit, this', heap', evs) →
  table_layout cfg this' ∧
  count_protocols this' = count_protocols this ∧
  ∀ j, j ≤ count_protocols this →
       fd <$> fds this' !! j = fd <$> fds this !! j ∧
       wsi this' !! j = wsi this !! j.
Proof.
  intros Hlay Hrun.
  pose proof (apply_poll_layout this pr Hlay) as Hlay1.
  unfold service_iteration in Hrun. cbv zeta in Hrun.
  set (this1 := apply_poll this pr) in *.
  assert (count_protocols this1 = count_protocols this) as Hp1 by done.
  assert (∀ j, fd <$> fds this1 !! j = fd <$> fds this !! j
               ∧ wsi this1 !! j = wsi this !! j) as Hsame1.
  { intros j. split; [apply apply_poll_fd|done]. }
  destruct (_ : option bool) as [[|]|]; simpl in Hrun; [| |done].
  { destruct (fatal_cleanup this1); [|done]. simpl in Hrun.
    by simplify_eq. }
  destruct (poll_return pr =? 0)%Z; [by simplify_eq|].
  destruct Hlay1 as (Hc1 & Hmax1 & Hlf1 & Hlw1).
  destruct (accept_loop_spec (seq 0 (count_protocols this1 + 1)) this1 heap)
    as (aexit & this2 & heap2 & evs2
        & Hacc & Hp2 & Hlf2 & Hlw2 & Hge2 & Hmax2 & Hlow2 & _);
    [|done..|].
  { apply Forall_forall. intros c Hin. apply elem_of_seq in Hin. lia. }
  unfold accept_phase in Hrun. rewrite Hacc in Hrun. simpl in Hrun.
  assert (table_layout cfg this2) as Hlay2.
  { unfold table_layout. rewrite Hp2, Hlf2, Hlw2.
    repeat split; try done; try lia; by apply Hmax2. }
  assert (∀ j, j ≤ count_protocols this →
               fd <$> fds this2 !! j = fd <$> fds this !! j
               ∧ wsi this2 !! j = wsi this !! j) as Hsame2.
  { intros j Hj.
    rewrite (proj1 (Hlow2 j ltac:(lia))), (proj2 (Hlow2 j ltac:(lia))).
    apply Hsame1. }
  destruct aexit.
  2:{ simplify_eq. split; [done|]. split; [lia|done]. }
  destruct (libwebsocket_poll_connections cfg env protocols this2 heap2)
    as [[[this3 heap3] evs3]|] eqn:Hpoll; [|done].
  simpl in Hrun. simplify_eq.
  unfold libwebsocket_poll_connections in Hpoll.
  destruct Hlay2 as (Hc2 & Hm2 & Hf2 & Hw2).
  apply poll_loop_inv in Hpoll as (Hp3 & Hlt3 & Hcnt3 & Hlf3 & Hlw3 & Hlow3);
    [|lia..].
  split.
  { unfold table_layout. rewrite Hlf3, Hlw3.
    repeat split; try done; lia. }
  split; [lia|].
  intros j Hj.
  rewrite (proj1 (Hlow3 j ltac:(lia))), (proj2 (Hlow3 j ltac:(lia))).
  by apply Hsame2.
Qed.

(** X11.  Teardown and reap leave no dangling reference.  When the slot
    of a record reports an error or a hang-up, and no other active slot
    holds that record's address, the service loop frees the record and
    reaps the slot: afterwards no active slot holds the freed address,
    and every address an active slot holds that was bound in the store
    is still bound. *)
Theorem teardown_and_reap_leave_no_dangling
    (protocols : list libwebsocket_protocols)
    (this : libwebsocket_context) (heap : gmap Z libwebsocket)
    (client k : nat) (pfd : pollfd) (w : Z) (r : libwebsocket) :
  client < fds_count this →
  fds_count this ≤ length (fds this) →
  fds_count this ≤ length (wsi this) →
  fds this !! client = Some pfd →
  Z.land (revents pfd) (Z.lor (POLLERR cfg) (POLLHUP cfg)) ≠ 0%Z →
  wsi this !! client = Some w →
  (LWS_MAX_PROTOCOLS cfg ≤ w)%Z →
  heap !! w = Some r →
  is_Some (protocols !! protocol r) →
  (∀ j, j < fds_count this → j ≠ client → wsi this !! j ≠ Some w) →
  ∃ this' evs,
    poll_loop cfg env protocols (S k) client this heap
    = Some (this', delete w heap, evs) ∧
    fds_count this' = fds_count this - 1 ∧
    (∀ j, j < fds_count this' → wsi this' !! j ≠ Some w) ∧
    (∀ j v, j < fds_count this' → wsi this' !! j = Some v →
            is_Some (heap !! v) → is_Some (delete w heap !! v)).
Proof.
  intros Hc Hlf Hlw Hfd Herr Hw Hge Hr [P HP] Hunique.
  destruct (shift_down_spec (fds_count this - 1 - client) client
              {| fds := fds this; wsi := wsi this;
                 fds_count := fds_count this - 1;
                 count_protocols := count_protocols this;
                 ctx_use_ssl := ctx_use_ssl this |})
    as (this' & Hshift & Hcnt & _ & _ & _ & _ & Hws); [simpl; lia..|].
  simpl in *.
  assert (∀ j, j < fds_count this' → wsi this' !! j ≠ Some w) as Hgone.
  { intros j Hj. rewrite Hws. case_decide; apply Hunique; lia. }
  cbn [poll_loop]. unfold service_slot. rewrite Hfd. simpl.
  apply Z.eqb_neq in Herr. rewrite Herr. simpl. rewrite Hw. simpl.
  unfold libwebsocket_close_and_free_session.
  apply Z.ltb_ge in Hge. rewrite Hge, Hr. simpl. rewrite HP. simpl.
  unfold nuke_this. simpl. rewrite Hshift. simpl.
  eexists _, _. split; [done|]. split; [done|]. split; [done|].
  intros j v Hj Hv Hbound.
  rewrite lookup_delete_ne; [done|].
  intros ->. by apply (Hgone j Hj).
Qed.

(** What the set-up loop makes of the protocol array and of the table,
    when it reaches the [fork]. *)
Lemma setup_protocols_table (rest : list libwebsocket_protocols) :
  ∀ server this protocols this' protocols',
    rest = drop (count_protocols this) protocols →
    fds_count this = count_protocols this + 1 →
    setup_protocols cfg env rest server this protocols
    = Some (SetupReady this' protocols') →
    count_protocols this ≤ count_protocols this' ∧
    (∀ i P, count_protocols this ≤ i < count_protocols this' →
            protocols !! i = Some P → callback P ≠ 0%Z) ∧
    (∃ T, protocols !! count_protocols this' = Some T ∧ callback T = 0%Z) ∧
    length protocols' = length protocols ∧
    (∀ i, i < count_protocols this ∨ count_protocols this' ≤ i →
          protocols' !! i = protocols !! i) ∧
    (∀ i p, protocols' !! i = Some p →
            ∃ P, protocols !! i = Some P ∧ callback p = callback P ∧
                 broadcast_socket_user_fd p = broadcast_socket_user_fd P) ∧
    (∀ j, j < fds_count this → fds this' !! j = fds this !! j) ∧
    (∀ i, count_protocols this ≤ i < count_protocols this' →
          ∃ p f, protocols' !! i = Some p ∧ fds this' !! (i + 1) = Some f ∧
                 fd f = sys_socket env i ∧ events f = POLLIN cfg ∧
                 broadcast_socket_port p = (sys_getsockname env (fd f)).2).
Proof.
  induction rest as [|p rest IH];
    intros server this protocols this' protocols' Hrest Hslot Hrun;
    simpl in Hrun; [done|].
  assert (protocols !! count_protocols this = Some p) as Hp.
  { rewrite <- (Nat.add_0_r (count_protocols this)), <- lookup_drop.
    by rewrite <- Hrest. }
  destruct (callback p =? 0)%Z eqn:Hcb.
  { apply Z.eqb_eq in Hcb. simplify_eq.
    split; [done|]. split; [intros; lia|]. split; [by exists p|].
    split; [done|]. split; [done|]. split; [by eauto|].
    split; [done|]. intros; lia. }
  apply Z.eqb_neq in Hcb.
  destruct (sys_socket env (count_protocols this) <? 0)%Z; [done|].
  destruct (sys_bind env _ <? 0)%Z; [done|].
  destruct (sys_getsockname env _) as [res port] eqn:Hname.
  destruct (res <? 0)%Z; [done|].
  destruct (fds this !! fds_count this) as [old|]; [|done]. simpl in Hrun.
  unfold array_set in Hrun.
  destruct (decide (fds_count this < length (fds this))) as [Hlf|]; [|done].
  simpl in Hrun.
  destruct (decide (fds_count this < length (wsi this))); [|done].
  simpl in Hrun.
  apply IH in Hrun
    as (Hc & Hcbs & (T & HT & HT0) & Hlen & Hframe & Hfields & Hlow & Hpair);
    simpl in *.
  2:{ rewrite Nat.add_1_r, drop_insert_lt by lia.
      rewrite (drop_S _ _ _ Hp) in Hrest. by simplify_eq. }
  2:{ lia. }
  rewrite length_insert in Hlen.
  split; [lia|]. split.
  { intros i P Hi HP.
    destruct (decide (i = count_protocols this)) as [->|Hne];
      [by simplify_eq|].
    apply (Hcbs i); [lia|]. by rewrite list_lookup_insert_ne by lia. }
  split.
  { exists T. split; [|done].
    by rewrite list_lookup_insert_ne in HT by lia. }
  split; [done|]. split.
  { intros i Hi. rewrite Hframe by lia.
    by rewrite list_lookup_insert_ne by lia. }
  split.
  { intros i q Hq. destruct (Hfields i q Hq) as (P1 & HP1 & Hc1 & Hu1).
    destruct (decide (i = count_protocols this)) as [->|Hne].
    - rewrite list_lookup_insert_eq in HP1 by (by apply lookup_lt_Some in Hp).
      simplify_eq. by exists p.
    - rewrite list_lookup_insert_ne in HP1 by lia. by exists P1. }
  split.
  { intros j Hj. rewrite Hlow by lia.
    by rewrite list_lookup_insert_ne by lia. }
  intros i Hi.
  destruct (decide (i = count_protocols this)) as [->|Hne].
  - eexists _, _. split.
    { rewrite Hframe by lia.
      by rewrite list_lookup_insert_eq by (by apply lookup_lt_Some in Hp). }
    split.
    { rewrite Hlow by lia. rewrite <- Hslot.
      by rewrite list_lookup_insert_eq. }
    simpl. by rewrite Hname.
  - apply Hpair. lia.
Qed.

(** X12.  Set-up counts up to the terminator and pairs ports with
    listeners.  When the set-up of the table reaches the [fork], the
    number of protocols is the position of the first entry without a
    callback; that entry and those after it are untouched, and no entry
    has had its callback or [broadcast_socket_user_fd] changed.  Slot 0
    holds the listening socket, and for each protocol [i] slot [i + 1]
    holds, waiting for POLLIN, the socket created for it, whose port as
    [getsockname] reports it is the [broadcast_socket_port] recorded. *)
Theorem setup_counts_up_to_terminator
    (server : Z) (fds0 : list pollfd) (wsi0 : list Z) (sockfd : Z)
    (protocols : list libwebsocket_protocols)
    (this' : libwebsocket_context)
    (protocols' : list libwebsocket_protocols) :
  create_server_table cfg env server fds0 wsi0 sockfd protocols
  = Some (SetupReady this' protocols') →
  (∀ i P, i < count_protocols this' →
          protocols !! i = Some P → callback P ≠ 0%Z) ∧
  (∃ T, protocols !! count_protocols this' = Some T ∧ callback T = 0%Z) ∧
  length protocols' = length protocols ∧
  (∀ i, count_protocols this' ≤ i → protocols' !! i = protocols !! i) ∧
  (∀ i p, protocols' !! i = Some p →
          ∃ P, protocols !! i = Some P ∧ callback p = callback P ∧
               broadcast_socket_user_fd p = broadcast_socket_user_fd P) ∧
  (∃ f, fds this' !! 0 = Some f ∧ fd f = sockfd ∧ events f = POLLIN cfg) ∧
  (∀ i, i < count_protocols this' →
        ∃ p f, protocols' !! i = Some p ∧ fds this' !! (i + 1) = Some f ∧
               fd f = sys_socket env i ∧ events f = POLLIN cfg ∧
               broadcast_socket_port p = (sys_getsockname env (fd f)).2).
Proof.
  intros Hrun. unfold create_server_table in Hrun.
  destruct (fds0 !! 0) as [old|] eqn:Hold; [|done]. simpl in Hrun.
  unfold array_set in Hrun.
  destruct (decide (0 < length fds0)); [|done]. simpl in Hrun.
  apply setup_protocols_table in Hrun
    as (_ & Hcbs & HT & Hlen & Hframe & Hfields & Hlow & Hpair);
    [|done..].
  simpl in *.
  split; [intros i P Hi; apply Hcbs; lia|].
  split; [done|]. split; [done|].
  split; [intros i Hi; apply Hframe; lia|].
  split; [done|]. split.
  { eexists. split; [rewrite Hlow by lia; by apply list_lookup_insert_eq|].
    done. }
  intros i Hi. apply Hpair. lia.
Qed.

(** X14.  A rendezvous connection that hangs up is dropped silently.
    When a slot holding a protocol-index sentinel reports an error or a
    hang-up, the service loop reaps the slot and returns: the store is
    untouched and the trace is empty -- no callback, and no [close] of
    the rendezvous descriptor. *)
Theorem rendezvous_hangup_reaps_silently
    (protocols : list libwebsocket_protocols)
    (this : libwebsocket_context) (heap : gmap Z libwebsocket)
    (client k : nat) (pfd : pollfd) (w : Z) :
  client < fds_count this →
  fds_count this ≤ length (fds this) →
  fds_count this ≤ length (wsi this) →
  fds this !! client = Some pfd →
  Z.land (revents pfd) (Z.lor (POLLERR cfg) (POLLHUP cfg)) ≠ 0%Z →
  wsi this !! client = Some w →
  (w < LWS_MAX_PROTOCOLS cfg)%Z →
  ∃ this',
    poll_loop cfg env protocols (S k) client this heap
    = Some (this', heap, []) ∧
    fds_count this' = fds_count this - 1 ∧
    ∀ j, j < client →
         fds this' !! j = fds this !! j ∧ wsi this' !! j = wsi this !! j.
Proof.
  intros Hc Hlf Hlw Hfd Herr Hw Hlt.
  destruct (shift_down_spec (fds_count this - 1 - client) client
              {| fds := fds this; wsi := wsi this;
                 fds_count := fds_count this - 1;
                 count_protocols := count_protocols this;
                 ctx_use_ssl := ctx_use_ssl this |})
    as (this' & Hshift & Hcnt & _ & _ & _ & Hfs & Hws); [simpl; lia..|].
  simpl in *.
  cbn [poll_loop]. unfold service_slot. rewrite Hfd. simpl.
  apply Z.eqb_neq in Herr. rewrite Herr. simpl. rewrite Hw. simpl.
  rewrite (close_sentinel cfg env _ _ _ Hlt). simpl.
  unfold nuke_this. simpl. rewrite Hshift. simpl.
  exists this'. split; [done|]. split; [done|].
  intros j Hj. rewrite Hfs, Hws. by rewrite !decide_False by lia.
Qed.

(** X15.  A rendezvous payload is delivered intact.  When the [read] of
    a readable rendezvous slot returns a count that fits a [size_t], the
    service of the slot asks for no reap and leaves the store alone, and
    every callback it makes is a BROADCAST handed the bytes read and
    that count. *)
Theorem rendezvous_payload_delivered_intact
    (protocols : list libwebsocket_protocols)
    (this : libwebsocket_context) (heap heap' : gmap Z libwebsocket)
    (client : nat) (pfd : pollfd) (w res : Z) (data : list Z)
    (exit : slot_exit) (evs : list event) :
  fds this !! client = Some pfd →
  wsi this !! client = Some w →
  Z.land (revents pfd) (Z.lor (POLLERR cfg) (POLLHUP cfg)) = 0%Z →
  Z.land (revents pfd) (POLLIN cfg) ≠ 0%Z →
  (w < LWS_MAX_PROTOCOLS cfg)%Z →
  sys_read env (fd pfd) = (res, data) →
  (0 ≤ res < 2 ^ Z.pos (size_t_bits cfg))%Z →
  service_slot cfg env protocols this heap client
  = Some (exit, heap', evs) →
  exit = SlotContinue ∧ heap' = heap ∧
  ∀ c, c ∈ callbacks_of evs →
       cb_reason c = LWS_CALLBACK_BROADCAST ∧
       cb_in c = Some data ∧ cb_len c = res.
Proof.
  intros Hfd Hw Herr Hin Hlt Hread Hres Hrun.
  rewrite (rendezvous_read_always_fans_out cfg env _ _ _ _ _ _ _ _
             Hfd Hw Herr Hin Hlt Hread) in Hrun.
  destruct (broadcast_fanout _ _ _ _ _ _ _) as [evs'|] eqn:Hloop; [|done].
  simpl in Hrun. simplify_eq. split; [done|]. split; [done|].
  intros c Hc.
  change (EvRead (fd pfd) :: evs') with ([EvRead (fd pfd)] ++ evs') in Hc.
  rewrite callbacks_of_app in Hc. simpl in Hc.
  destruct (for_each_callbacks _ _ _ _ Hloop Hc) as (n & ev & _ & Hb & Hev).
  destruct (fanout_slot_inv cfg _ _ _ _ _ _ _ _ _ Hb Hev)
    as (w' & r & p & _ & _ & _ & _ & _ & _ & ->).
  simpl. split; [done|]. split; [done|].
  unfold to_size_t. by apply Z.mod_small.
Qed.

(** X16.  After set-up both broadcast paths agree.  For the protocol
    array the set-up produced and any protocol [i] it counted, the
    in-loop loop for the pointer to entry [i] and the rendezvous fan-out
    for the sentinel [i] make the same calls, provided every established
    record in a client slot points at one of the counted protocols. *)
Theorem setup_makes_broadcast_paths_agree
    (server : Z) (fds0 : list pollfd) (wsi0 : list Z) (sockfd : Z)
    (protocols protocols' : list libwebsocket_protocols)
    (this0 this : libwebsocket_context) (heap : gmap Z libwebsocket)
    (i : nat) (buf : list Z) (len : Z) :
  create_server_table cfg env server fds0 wsi0 sockfd protocols
  = Some (SetupReady this0 protocols') →
  i < count_protocols this0 →
  (∀ n w r,
      n ∈ client_slots this → wsi this !! n = Some w →
      (LWS_MAX_PROTOCOLS cfg ≤ w)%Z → heap !! w = Some r →
      state r = WSI_STATE_ESTABLISHED →
      protocol r < count_protocols this0) →
  for_each (client_slots this)
           (inloop_slot cfg protocols' this heap i buf len)
  = broadcast_fanout cfg protocols' this heap (Z.of_nat i) buf len.
Proof.
  intros Hrun Hi Hrecords. unfold create_server_table in Hrun.
  destruct (fds0 !! 0) as [old|]; [|done]. simpl in Hrun.
  destruct (array_set fds0 0 _) as [fds1|]; [|done]. simpl in Hrun.
  apply setup_protocols_spec in Hrun as (_ & _ & _ & _ & _ & Hstamp);
    [|done].
  simpl in Hstamp.
  unfold broadcast_fanout. apply for_each_ext. intros n Hn.
  unfold inloop_slot, fanout_slot.
  destruct (wsi this !! n) as [w|] eqn:Hw; [|done]. simpl.
  destruct (w <? LWS_MAX_PROTOCOLS cfg)%Z eqn:Hlt; [done|].
  destruct (heap !! w) as [r|] eqn:Hr; [|done]. simpl.
  destruct (bool_decide (state r = WSI_STATE_ESTABLISHED)) eqn:Hst; [|done].
  simpl. apply bool_decide_eq_true in Hst. apply Z.ltb_ge in Hlt.
  pose proof (Hrecords n w r Hn Hw Hlt Hr Hst) as Hq.
  destruct (Hstamp (protocol r)) as (p & Hp & Hpi & _); [lia|].
  rewrite Hp. simpl. rewrite Hpi.
  destruct (decide (protocol r = i)) as [Heq|Hne].
  - rewrite (bool_decide_eq_true_2 _ Heq). simpl.
    rewrite Heq, Z.eqb_refl. done.
  - rewrite (bool_decide_eq_false_2 _ Hne). simpl.
    assert (Z.of_nat (protocol r) ≠ Z.of_nat i) as Hz by lia.
    apply Z.eqb_neq in Hz. by rewrite Hz.
Qed.

End ServerProperties.

(** A value that fits an [int] is stored in it unchanged. *)
Lemma to_int_fits (x : Z) : (- 2 ^ 31 ≤ x < 2 ^ 31)%Z → to_int x = x.
Proof.
  intros Hx. unfold to_int.
  rewrite Z.mod_small by lia. lia.
Qed.

Section ParentProperties.

Variable cfg : lws_config.
Variable env : environment.
Variable sys_connect : Z → Z → Z.

(** What the loop of the parent has done to the protocol array. *)
Lemma connect_loop_spec (clients : list nat) :
  ∀ count protocols code protocols' conns,
    NoDup clients →
    Forall (λ c, 1 ≤ c) clients →
    connect_loop env sys_connect clients count protocols
    = Some (code, protocols', conns) →
    length protocols' = length protocols ∧
    (∀ i, (∀ c, c ∈ clients → c - 1 ≠ i) →
          protocols' !! i = protocols !! i) ∧
    (code = 0%Z →
     ∀ c, c ∈ clients →
          ∃ P, protocols !! (c - 1) = Some P ∧
               protocols' !! (c - 1)
               = Some {| callback := callback P;
                         owning_server := owning_server P;
                         protocol_index := protocol_index P;
                         broadcast_socket_port := broadcast_socket_port P;
                         broadcast_socket_user_fd :=
                           sys_socket env (count + c - 1) |} ∧
               (0 ≤ sys_socket env (count + c - 1))%Z ∧
               (sys_socket env (count + c - 1), broadcast_socket_port P)
               ∈ conns).
Proof.
  induction clients as [|c rest IH];
    intros count protocols code protocols' conns Hnd Hpos Hrun;
    simpl in Hrun.
  - simplify_eq. split; [done|]. split; [done|].
    intros _ c Hc. by apply elem_of_nil in Hc.
  - apply NoDup_cons in Hnd as [Hnotin Hnd].
    apply Forall_cons in Hpos as [Hc1 Hpos].
    destruct (sys_socket env (count + c - 1) <? 0)%Z eqn:Hs.
    { simplify_eq. split; [done|]. split; [done|]. done. }
    destruct (protocols !! (c - 1)) as [P|] eqn:HP; [|done]. simpl in Hrun.
    destruct (sys_connect _ _ <? 0)%Z.
    { simplify_eq. split; [done|]. split; [done|]. done. }
    destruct (connect_loop env sys_connect rest count _)
      as [[[code1 protocols1] conns1]|] eqn:Hrest; [|done].
    simpl in Hrun. simplify_eq.
    apply IH in Hrest as (Hlen & Hframe & Hdone); [|done..].
    rewrite length_insert in Hlen.
    split; [done|]. split.
    { intros i Hi. rewrite Hframe.
      - rewrite list_lookup_insert_ne; [done|]. apply Hi. left.
      - intros c' Hc'. apply Hi. by right. }
    intros Hcode c' Hc'. apply elem_of_cons in Hc' as [->|Hc'].
    + exists P. split; [done|]. split.
      { rewrite Hframe.
        - by rewrite list_lookup_insert_eq by (by apply lookup_lt_Some in HP).
        - intros c' Hc' Heq.
          assert (1 ≤ c') by (by eapply Forall_forall in Hpos).
          assert (c' = c) as -> by lia. done. }
      split; [by apply Z.ltb_ge in Hs|]. left.
    + destruct (Hdone Hcode c' Hc') as (P1 & HP1 & Hp1 & Hs1 & Hin1).
      assert (1 ≤ c') by (by eapply Forall_forall in Hpos).
      assert (c' ≠ c) by (intros ->; done).
      rewrite list_lookup_insert_ne in HP1 by lia.
      exists P1. split; [done|]. split; [done|]. split; [done|]. by right.
Qed.

(** X13.  The parent gets one rendezvous socket per protocol.  When the
    parent side of [libwebsocket_create_server] returns 0, every protocol
    [i] has in [broadcast_socket_user_fd] the socket the parent created
    for it, connected to the port recorded for that protocol, and its
    other fields are unchanged.  If that descriptor is not 0, a
    [libwebsockets_broadcast] for the protocol sends the payload on it,
    calls no callback, and returns what [send] returned as stored in
    the [int] [n]: that very result whenever it fits an [int]. *)
Theorem parent_connects_every_protocol
    (this : libwebsocket_context)
    (protocols protocols' : list libwebsocket_protocols)
    (conns : list (Z * Z)) (i : nat) :
  connect_broadcast_sockets env sys_connect this protocols
  = Some (0%Z, protocols', conns) →
  i < count_protocols this →
  ∃ P p,
    protocols !! i = Some P ∧ protocols' !! i = Some p ∧
    broadcast_socket_user_fd p = sys_socket env (count_protocols this + i) ∧
    (0 ≤ broadcast_socket_user_fd p)%Z ∧
    callback p = callback P ∧ owning_server p = owning_server P ∧
    protocol_index p = protocol_index P ∧
    broadcast_socket_port p = broadcast_socket_port P ∧
    (broadcast_socket_user_fd p, broadcast_socket_port P) ∈ conns ∧
    (broadcast_socket_user_fd p ≠ 0%Z →
     ∀ servers heap buf len,
       libwebsockets_broadcast cfg env protocols' servers heap i buf len
       = Some (to_int (sys_send env (broadcast_socket_user_fd p) buf len),
               [EvSend (broadcast_socket_user_fd p) len]) ∧
       ((- 2 ^ 31 ≤ sys_send env (broadcast_socket_user_fd p) buf len
         < 2 ^ 31)%Z →
        libwebsockets_broadcast cfg env protocols' servers heap i buf len
        = Some (sys_send env (broadcast_socket_user_fd p) buf len,
                [EvSend (broadcast_socket_user_fd p) len]))).
Proof.
  intros Hrun Hi. unfold connect_broadcast_sockets in Hrun.
  apply connect_loop_spec in Hrun as (_ & _ & Hdone).
  2:{ apply NoDup_seq. }
  2:{ apply Forall_forall. intros c Hc. apply elem_of_seq in Hc. lia. }
  destruct (Hdone eq_refl (i + 1)) as (P & HP & Hp & Hs & Hin).
  { apply elem_of_seq. lia. }
  replace (i + 1 - 1) with i in * by lia.
  replace (count_protocols this + (i + 1) - 1)
    with (count_protocols this + i) in * by lia.
  eexists P, _. split; [done|]. split; [exact Hp|]. simpl.
  do 6 (split; [done|]). split; [done|].
  intros Hnz servers heap buf len.
  unfold libwebsockets_broadcast. rewrite Hp. simpl.
  apply Z.eqb_neq in Hnz. rewrite Hnz. split; [done|].
  intros Hfit. by rewrite to_int_fits.
Qed.

End ParentProperties.

Section LoopProperties.

Variable cfg : lws_config.

(** X10.  The server loop keeps its table in shape.  Started on a table
    laid out as the source describes, the loop, over any sequence of
    turns -- whatever [poll] reports and whatever the operating system,
    the TLS library and the engine answer on each of them -- and
    whichever way it leaves, keeps the count between the number of
    listeners and [MAX_CLIENTS], never changes [count_protocols], and
    never moves, replaces or drops the listener or a rendezvous
    listener: slots [0 .. count_protocols] keep their descriptor and
    their [wsi] value. *)
Theorem server_loop_keeps_layout
    (protocols : list libwebsocket_protocols)
    (script : list (poll_result * environment))
    (this this' : libwebsocket_context)
    (heap heap' : gmap Z libwebsocket)
    (exit : iteration_exit) (evs : list event) :
  table_layout cfg this →
  server_loop cfg protocols script this heap
  = Some (exit, this', heap', evs) →
  table_layout cfg this' ∧
  count_protocols this' = count_protocols this ∧
  ∀ j, j ≤ count_protocols this →
       fd <$> fds this' !! j = fd <$> fds this !! j ∧
       wsi this' !! j = wsi this !! j.
Proof.
  revert this heap exit evs.
  induction script as [|[pr env] script IH];
    intros this heap exit evs Hlay Hrun; simpl in Hrun.
  - by simplify_eq.
  - destruct (service_iteration cfg env protocols this heap pr)
      as [[[[exit1 this1] heap1] evs1]|] eqn:Hiter; [|done].
    simpl in Hrun.
    apply service_iteration_inv in Hiter as (Hlay1 & Hp1 & Hsame1); [|done].
    destruct exit1; try by simplify_eq.
    destruct (server_loop cfg protocols script this1 heap1)
      as [[[[exit2 this2] heap2] evs2]|] eqn:Hrest; [|done].
    simpl in Hrun. simplify_eq.
    apply IH in Hrest as (Hlay2 & Hp2 & Hsame2); [|done].
    split; [done|]. split; [lia|].
    intros j Hj.
    rewrite (proj1 (Hsame2 j ltac:(lia))), (proj2 (Hsame2 j ltac:(lia))).
    by apply Hsame1.
Qed.

(** X17.  A failed allocation ends the server at once.  When a
    connection is pending on the listener, the table has room and
    [malloc] returns [NULL], the turn returns -1 right after the
    [accept]: no later slot is accepted or serviced, no later turn is
    run, the store is untouched, and the accepted descriptor is not
    closed. *)
Theorem malloc_failure_ends_server
    (env : environment)
    (protocols : list libwebsocket_protocols)
    (this : libwebsocket_context) (heap : gmap Z libwebsocket)
    (pr : poll_result) (rest : list (poll_result * environment))
    (pfd : pollfd) :
  table_layout cfg this →
  fds this !! 0 = Some pfd →
  (0 < poll_return pr)%Z →
  Z.land (poll_revents pr 0) (Z.lor (POLLERR cfg) (POLLHUP cfg)) = 0%Z →
  Z.land (c_not (poll_revents pr 0)) (POLLIN cfg) = 0%Z →
  (0 ≤ sys_accept env (fd pfd))%Z →
  fds_count this < MAX_CLIENTS cfg →
  sys_malloc env heap = 0%Z →
  ∃ this',
    server_loop cfg protocols ((pr, env) :: rest) this heap
    = Some (IterReturn (-1), this', heap, [EvAccept (fd pfd)]) ∧
    fds_count this' = fds_count this.
Proof.
  intros (Hc & Hmax & Hlf & Hlw) Hfd Hn Hlive Htest Hacc Hroom Hnull.
  assert (fds (apply_poll this pr) !! 0
          = Some {| fd := fd pfd; events := events pfd;
                    revents := poll_revents pr 0 |}) as H0.
  { rewrite apply_poll_lookup, Hfd. simpl.
    by rewrite bool_decide_eq_true_2 by lia. }
  cbn [server_loop]. unfold service_iteration. cbv zeta. rewrite H0.
  assert ((poll_return pr <? 0)%Z = false) as -> by (apply Z.ltb_ge; lia).
  cbn [mbind option_bind revents]. rewrite Hlive. simpl.
  assert ((poll_return pr =? 0)%Z = false) as -> by (apply Z.eqb_neq; lia).
  unfold accept_phase.
  replace (count_protocols (apply_poll this pr) + 1)
    with (S (count_protocols this)) by (simpl; lia).
  cbn [seq accept_loop]. unfold accept_slot. rewrite H0.
  cbn [mbind option_bind revents fd]. rewrite Htest. simpl.
  apply Z.ltb_ge in Hacc. rewrite Hacc.
  rewrite bool_decide_eq_false_2 by lia. simpl.
  unfold array_set. rewrite decide_True by lia. simpl.
  rewrite Hnull. simpl.
  eexists. split; [done|]. done.
Qed.

End LoopProperties.

(** ** The further properties on the demo server *)

Lemma broadcast_reaches_own_protocol_witness :
  0%Z = 0%Z ∧ 700%Z ≠ 0%Z ∧
  demo_broadcast_call [120%Z] 1
  ∈ callbacks_of [EvCallback (demo_broadcast_call [120%Z] 1)].
Proof.
  apply (broadcast_reaches_own_protocol demo_cfg demo_env demo_protocols
           demo_servers demo_this demo_heap 0
           {| callback := 700; owning_server := 1000; protocol_index := 0;
              broadcast_socket_port := 40004;
              broadcast_socket_user_fd := 0 |}
           [120%Z] 1 0 [EvCallback (demo_broadcast_call [120%Z] 1)]
           4 4096 (demo_record 7 WSI_STATE_ESTABLISHED 0 4200)).
  - reflexivity.
  - reflexivity.
  - vm_compute. reflexivity.
  - vm_compute. right. left.
  - reflexivity.
  - vm_compute. discriminate.
  - vm_compute. reflexivity.
  - reflexivity.
  - vm_compute. reflexivity.
  - vm_compute. reflexivity.
Defined.

Lemma broadcast_calls_each_record_once_witness :
  (∀ proto P res evs,
      demo_protocols !! proto = Some P →
      demo_servers !! owning_server P = Some demo_this →
      libwebsockets_broadcast demo_cfg demo_env demo_protocols demo_servers
        demo_heap proto [120%Z] 1 = Some (res, evs) →
      NoDup (map cb_wsi (callbacks_of evs)))
  ∧
  (∀ sentinel evs,
      broadcast_fanout demo_cfg demo_protocols demo_this demo_heap
        sentinel [120%Z] 1 = Some evs →
      NoDup (map cb_wsi (callbacks_of evs))).
Proof.
  apply (broadcast_calls_each_record_once demo_cfg demo_env demo_protocols
           demo_servers demo_this demo_heap [120%Z] 1).
  apply (bool_decide_unpack _). vm_compute. exact I.
Defined.

Lemma broadcast_without_clients_is_silent_witness :
  libwebsockets_broadcast demo_cfg demo_env demo_protocols
    demo_servers_parent demo_heap 1 [120%Z] 1
  = Some (0%Z, []).
Proof.
  apply (broadcast_without_clients_is_silent demo_cfg demo_env
           demo_protocols demo_servers_parent demo_after_setup demo_heap 1
           {| callback := 701; owning_server := 1000; protocol_index := 1;
              broadcast_socket_port := 40005;
              broadcast_socket_user_fd := 0 |}).
  - reflexivity.
  - reflexivity.
  - vm_compute. reflexivity.
  - simpl. lia.
Defined.


Lemma service_phase_keeps_listeners_witness :
  ∃ this' heap' evs,
    libwebsocket_poll_connections demo_cfg demo_env demo_protocols
      demo_this demo_heap = Some (this', heap', evs) ∧
    count_protocols this' = 2 ∧ fds_count this' = 6 ∧
    ∀ j, j ≤ 2 →
         fds this' !! j = fds demo_this !! j ∧
         wsi this' !! j = wsi demo_this !! j.
Proof.
  eexists _, _, _. split; [vm_compute; reflexivity|].
  edestruct (service_phase_keeps_listeners demo_cfg demo_env demo_protocols
               demo_this) with (heap := demo_heap)
    as (Hp & _ & _ & _ & _ & Hlow).
  - simpl. lia.
  - vm_compute. reflexivity.
  - split; [exact Hp|]. split; [reflexivity|]. exact Hlow.
Defined.

Lemma accept_phase_stays_in_table_witness :
  ∃ exit this' heap' evs,
    accept_phase demo_cfg demo_env demo_this_tls demo_heap
    = Some (exit, this', heap', evs) ∧
    (exit = AcceptContinue ∨
     (exit = AcceptReturn (-1) ∧ ∃ h, sys_malloc demo_env h = 0%Z)) ∧
    ((∀ h, sys_malloc demo_env h ≠ 0%Z) → exit = AcceptContinue) ∧
    table_layout demo_cfg this' ∧
    count_protocols this' = count_protocols demo_this_tls ∧
    fds_count demo_this_tls ≤ fds_count this' ∧
    (∀ j, j < fds_count demo_this_tls →
          fds this' !! j = fds demo_this_tls !! j ∧
          wsi this' !! j = wsi demo_this_tls !! j) ∧
    callbacks_of evs = [].
Proof.
  apply (accept_phase_stays_in_table demo_cfg demo_env demo_this_tls
           demo_heap).
  unfold table_layout. simpl. lia.
Defined.

Lemma accept_then_teardown_restores_store_witness :
  ∃ this' heap' r,
    accept_slot demo_cfg demo_env
      (apply_poll demo_this_room demo_poll_accept) demo_heap 0
    = Some (AcceptContinue, this', heap', [EvAccept 3]) ∧
    fds_count this' = 5 + 1 ∧
    wsi this' !! 5 = Some 16384%Z ∧
    fds this' !! 5 = Some {| fd := 20; events := 1; revents := 0 |} ∧
    heap' !! 16384%Z = Some r ∧
    state r = WSI_STATE_HTTP ∧ protocol r = 0 ∧ user_space r = 0%Z ∧
    ietf_spec_revision r = 76%Z ∧
    libwebsocket_close_and_free_session demo_cfg demo_env demo_protocols
      heap' 16384
    = Some (demo_heap, [EvShutdown 20; EvClose 20; EvFree 16384]).
Proof.
  apply (accept_then_teardown_restores_store demo_cfg demo_env
           demo_protocols (apply_poll demo_this_room demo_poll_accept)
           demo_heap (demo_pollfd 3 1) 16384).
  - reflexivity.
  - reflexivity.
  - vm_compute. discriminate.
  - simpl. lia.
  - simpl. lia.
  - simpl. lia.
  - reflexivity.
  - reflexivity.
  - reflexivity.
  - discriminate.
  - vm_compute. discriminate.
  - vm_compute. reflexivity.
  - by eexists.
Defined.

Lemma ssl_failure_publishes_nothing_witness :
  ∃ this' evs,
    accept_slot demo_cfg demo_env demo_this_tls demo_heap 0
    = Some (AcceptContinue, this', demo_heap, evs) ∧
    fds_count this' = fds_count demo_this_tls ∧
    fds this' = fds demo_this_tls ∧
    (∀ j, j < fds_count demo_this_tls →
          wsi this' !! j = wsi demo_this_tls !! j) ∧
    callbacks_of evs = [] ∧
    EvFree 16384 ∈ evs ∧ EvClose 20 ∉ evs.
Proof.
  apply (ssl_failure_publishes_nothing demo_cfg demo_env demo_this_tls
           demo_heap (demo_pollfd 3 1)).
  - reflexivity.
  - reflexivity.
  - vm_compute. discriminate.
  - simpl. lia.
  - simpl. lia.
  - reflexivity.
  - vm_compute. discriminate.
  - left. reflexivity.
Defined.

Lemma dead_listener_closes_only_listener_witness :
  service_iteration demo_cfg demo_env demo_protocols demo_this demo_heap
    demo_poll_listener_dead
  = Some (IterFatal, apply_poll demo_this demo_poll_listener_dead,
          demo_heap, EvLog "Listen Socket dead" :: replicate 7 (EvClose 3))
  ∧ callbacks_of (EvLog "Listen Socket dead" :: replicate 7 (EvClose 3))
    = [].
Proof.
  apply (dead_listener_closes_only_listener demo_cfg demo_env
           demo_protocols demo_this demo_heap demo_poll_listener_dead
           (demo_pollfd 3 0)).
  - reflexivity.
  - simpl. lia.
  - right. vm_compute. discriminate.
Defined.

Lemma server_loop_keeps_layout_witness :
  ∃ exit this' heap' evs,
    server_loop demo_cfg demo_protocols
      [(demo_poll_idle, demo_env); (demo_poll_accept, demo_env_failing);
       (demo_poll_clients, demo_env)]
      demo_this_room demo_heap = Some (exit, this', heap', evs) ∧
    table_layout demo_cfg this' ∧
    count_protocols this' = 2 ∧
    ∀ j, j ≤ 2 →
         fd <$> fds this' !! j = fd <$> fds demo_this_room !! j ∧
         wsi this' !! j = wsi demo_this_room !! j.
Proof.
  eexists _, _, _, _. split; [vm_compute; reflexivity|].
  eapply (server_loop_keeps_layout demo_cfg demo_protocols
            [(demo_poll_idle, demo_env); (demo_poll_accept, demo_env_failing);
             (demo_poll_clients, demo_env)]
            demo_this_room) with (heap := demo_heap).
  - unfold table_layout. simpl. lia.
  - vm_compute. reflexivity.
Defined.

Lemma teardown_and_reap_leave_no_dangling_witness :
  ∃ this' evs,
    poll_loop demo_cfg demo_env demo_protocols 3 4
      (apply_poll demo_this demo_poll_client_hup) demo_heap
    = Some (this', delete 4096%Z demo_heap, evs) ∧
    fds_count this' = 7 - 1 ∧
    (∀ j, j < fds_count this' → wsi this' !! j ≠ Some 4096%Z) ∧
    (∀ j v, j < fds_count this' → wsi this' !! j = Some v →
            is_Some (demo_heap !! v) →
            is_Some (delete 4096%Z demo_heap !! v)).
Proof.
  apply (teardown_and_reap_leave_no_dangling demo_cfg demo_env
           demo_protocols (apply_poll demo_this demo_poll_client_hup)
           demo_heap 4 2 (demo_pollfd 7 16) 4096
           (demo_record 7 WSI_STATE_ESTABLISHED 0 4200)).
  - simpl. lia.
  - simpl. lia.
  - simpl. lia.
  - reflexivity.
  - vm_compute. discriminate.
  - reflexivity.
  - vm_compute. discriminate.
  - vm_compute. reflexivity.
  - by eexists.
  - intros j Hj Hne. simpl in Hj.
    do 7 (destruct j as [|j]; [vm_compute; congruence|]). lia.
Defined.

Lemma setup_counts_up_to_terminator_witness :
  (∀ i P, i < 2 → demo_user_protocols !! i = Some P → callback P ≠ 0%Z) ∧
  (∃ T, demo_user_protocols !! 2 = Some T ∧ callback T = 0%Z) ∧
  length demo_protocols = length demo_user_protocols ∧
  (∀ i, 2 ≤ i → demo_protocols !! i = demo_user_protocols !! i) ∧
  (∀ i p, demo_protocols !! i = Some p →
          ∃ P, demo_user_protocols !! i = Some P ∧
               callback p = callback P ∧
               broadcast_socket_user_fd p = broadcast_socket_user_fd P) ∧
  (∃ f, fds demo_after_setup !! 0 = Some f ∧ fd f = 3%Z ∧ events f = 1%Z) ∧
  (∀ i, i < 2 →
        ∃ p f, demo_protocols !! i = Some p ∧
               fds demo_after_setup !! (i + 1) = Some f ∧
               fd f = sys_socket demo_env i ∧ events f = 1%Z ∧
               broadcast_socket_port p
               = (sys_getsockname demo_env (fd f)).2).
Proof.
  apply (setup_counts_up_to_terminator demo_cfg demo_env 1000 demo_raw_fds
           demo_raw_wsi 3 demo_user_protocols demo_after_setup
           demo_protocols).
  vm_compute. reflexivity.
Defined.

Lemma parent_connects_every_protocol_witness :
  ∃ protocols' conns,
    connect_broadcast_sockets demo_env demo_connect demo_after_setup
      demo_protocols = Some (0%Z, protocols', conns) ∧
    ∃ P p,
      demo_protocols !! 1 = Some P ∧ protocols' !! 1 = Some p ∧
      broadcast_socket_user_fd p = sys_socket demo_env (2 + 1) ∧
      (0 ≤ broadcast_socket_user_fd p)%Z ∧
      callback p = callback P ∧ owning_server p = owning_server P ∧
      protocol_index p = protocol_index P ∧
      broadcast_socket_port p = broadcast_socket_port P ∧
      (broadcast_socket_user_fd p, broadcast_socket_port P) ∈ conns ∧
      (broadcast_socket_user_fd p ≠ 0%Z →
       ∀ servers heap buf len,
         libwebsockets_broadcast demo_cfg demo_env protocols' servers heap
           1 buf len
         = Some (to_int (sys_send demo_env (broadcast_socket_user_fd p)
                           buf len),
                 [EvSend (broadcast_socket_user_fd p) len]) ∧
         ((- 2 ^ 31 ≤ sys_send demo_env (broadcast_socket_user_fd p) buf len
           < 2 ^ 31)%Z →
          libwebsockets_broadcast demo_cfg demo_env protocols' servers heap
            1 buf len
          = Some (sys_send demo_env (broadcast_socket_user_fd p) buf len,
                  [EvSend (broadcast_socket_user_fd p) len]))).
Proof.
  eexists _, _. split; [vm_compute; reflexivity|].
  eapply (parent_connects_every_protocol demo_cfg demo_env demo_connect
            demo_after_setup demo_protocols).
  - vm_compute. reflexivity.
  - simpl. lia.
Defined.

Lemma rendezvous_hangup_reaps_silently_witness :
  ∃ this',
    poll_loop demo_cfg demo_env demo_protocols 4 3
      (apply_poll demo_this demo_poll_rendezvous_hup) demo_heap
    = Some (this', demo_heap, []) ∧
    fds_count this' = 7 - 1 ∧
    ∀ j, j < 3 →
         fds this' !! j
         = fds (apply_poll demo_this demo_poll_rendezvous_hup) !! j ∧
         wsi this' !! j = wsi demo_this !! j.
Proof.
  apply (rendezvous_hangup_reaps_silently demo_cfg demo_env demo_protocols
           (apply_poll demo_this demo_poll_rendezvous_hup)
           demo_heap 3 3 (demo_pollfd 6 16) 0).
  - simpl. lia.
  - simpl. lia.
  - simpl. lia.
  - reflexivity.
  - vm_compute. discriminate.
  - reflexivity.
  - reflexivity.
Defined.

Lemma rendezvous_payload_delivered_intact_witness :
  SlotContinue = SlotContinue ∧ demo_heap = demo_heap ∧
  ∀ c, c ∈ callbacks_of
             [EvRead 6; EvCallback (demo_broadcast_call [104; 105]%Z 2)] →
       cb_reason c = LWS_CALLBACK_BROADCAST ∧
       cb_in c = Some [104; 105]%Z ∧ cb_len c = 2%Z.
Proof.
  apply (rendezvous_payload_delivered_intact demo_cfg demo_env
           demo_protocols demo_this demo_heap demo_heap 3
           (demo_pollfd 6 1) 0 2 [104; 105]%Z SlotContinue
           [EvRead 6; EvCallback (demo_broadcast_call [104; 105]%Z 2)]).
  - reflexivity.
  - reflexivity.
  - reflexivity.
  - vm_compute. discriminate.
  - reflexivity.
  - reflexivity.
  - vm_compute. split; [discriminate|reflexivity].
  - vm_compute. reflexivity.
Defined.

Lemma setup_makes_broadcast_paths_agree_witness :
  for_each (client_slots demo_this)
           (inloop_slot demo_cfg demo_protocols demo_this demo_heap 1
                        [120%Z] 1)
  = broadcast_fanout demo_cfg demo_protocols demo_this demo_heap
      (Z.of_nat 1) [120%Z] 1.
Proof.
  apply (setup_makes_broadcast_paths_agree demo_cfg demo_env 1000
           demo_raw_fds demo_raw_wsi 3 demo_user_protocols demo_protocols
           demo_after_setup demo_this demo_heap 1 [120%Z] 1).
  - vm_compute. reflexivity.
  - simpl. lia.
  - intros n w r Hn Hw _ Hr _.
    assert (w = 0%Z ∨ w = 4096%Z ∨ w = 8192%Z ∨ w = 12288%Z) as Hcases.
    { vm_compute in Hn.
      repeat (apply elem_of_cons in Hn as [Heq|Hn];
              [subst n; vm_compute in Hw; injection Hw as Hw;
               subst w; tauto|]).
      by apply elem_of_nil in Hn. }
    destruct Hcases as [-> | [-> | [-> | ->]]];
      vm_compute in Hr; [discriminate|..];
      injection Hr as <-; simpl; lia.
Defined.

Lemma malloc_failure_ends_server_witness :
  ∃ this',
    server_loop demo_cfg demo_protocols
      [(demo_poll_accept, demo_env_no_memory); (demo_poll_clients, demo_env)]
      demo_this_room demo_heap
    = Some (IterReturn (-1), this', demo_heap, [EvAccept 3]) ∧
    fds_count this' = fds_count demo_this_room.
Proof.
  apply (malloc_failure_ends_server demo_cfg demo_env_no_memory
           demo_protocols
           demo_this_room demo_heap demo_poll_accept
           [(demo_poll_clients, demo_env)] (demo_pollfd 3 0)).
  - unfold table_layout. simpl. lia.
  - reflexivity.
  - reflexivity.
  - reflexivity.
  - reflexivity.
  - vm_compute. discriminate.
  - simpl. lia.
  - reflexivity.
Defined.
